(** * video_quality_checker: the property extractor and the format converter

    A shallow embedding of [main.py]: [get_video_properties] (lines 13-73)
    and [convert_video_to_requirements] (lines 75-123).

    The two functions are glue around three things that are not code of the
    repository: [subprocess.run], [json.loads] and [float] on strings.  They
    are parameters of the development.  Everything else the functions use
    ([str.split], [int], subscripts, [in], [dict.get], [/]) is modelled below.

    Text is modelled by [string], read as a sequence of code points below 256.
    A Python exception is identified by its class and, inside
    [get_video_properties], by the source line that raises it (what the
    traceback shows). *)

From Stdlib Require Import ZArith List String Ascii Bool Lia.
From Stdlib Require Import SpecFloat.
Import ListNotations.

Local Open Scope string_scope.
Local Open Scope Z_scope.

(** ** Python values and builtins *)

Module Py.

(** Exception classes that the two functions can meet. *)
Inductive exc_class :=
  | Exception
  | KeyError | IndexError | LookupError
  | TypeError | AttributeError
  | ValueError | JSONDecodeError | UnicodeError | UnicodeDecodeError
  | ArithmeticError | ZeroDivisionError | OverflowError
  | RuntimeError | NotImplementedError | RecursionError
  | SubprocessError | CalledProcessError
  | OSError | FileNotFoundError | PermissionError.

Definition exc_class_eqb (c d : exc_class) : bool :=
  match c, d with
  | Exception, Exception | KeyError, KeyError | IndexError, IndexError
  | LookupError, LookupError | TypeError, TypeError
  | AttributeError, AttributeError | ValueError, ValueError
  | JSONDecodeError, JSONDecodeError | UnicodeError, UnicodeError
  | UnicodeDecodeError, UnicodeDecodeError
  | ArithmeticError, ArithmeticError
  | ZeroDivisionError, ZeroDivisionError | OverflowError, OverflowError
  | RuntimeError, RuntimeError | NotImplementedError, NotImplementedError
  | RecursionError, RecursionError | SubprocessError, SubprocessError
  | CalledProcessError, CalledProcessError | OSError, OSError
  | FileNotFoundError, FileNotFoundError
  | PermissionError, PermissionError => true
  | _, _ => false
  end.

(** The direct base class; [Exception] is the root of the modelled part. *)
Definition exc_base (c : exc_class) : option exc_class :=
  match c with
  | Exception => None
  | KeyError | IndexError => Some LookupError
  | JSONDecodeError | UnicodeError => Some ValueError
  | UnicodeDecodeError => Some UnicodeError
  | ZeroDivisionError | OverflowError => Some ArithmeticError
  | NotImplementedError | RecursionError => Some RuntimeError
  | CalledProcessError => Some SubprocessError
  | FileNotFoundError | PermissionError => Some OSError
  | LookupError | TypeError | AttributeError | ValueError | ArithmeticError
  | RuntimeError | SubprocessError | OSError => Some Exception
  end.

(** [issubclass c d]; the hierarchy above has depth three. *)
Fixpoint issubclass_upto (n : nat) (c d : exc_class) : bool :=
  exc_class_eqb c d ||
  match n with
  | O => false
  | S n' => match exc_base c with
            | Some b => issubclass_upto n' b d
            | None => false
            end
  end.

Definition issubclass (c d : exc_class) : bool := issubclass_upto 3 c d.

(** An exception object: its class and [str(err)]. *)
Record pyexc := mkExc { exc_type : exc_class; exc_str : string }.

(** The result of a builtin: a value or a raised exception class. *)
Inductive pyres (A : Type) :=
  | Val (a : A)
  | Exc (c : exc_class).
Arguments Val {A} a.
Arguments Exc {A} c.

(** Values as [json.loads] builds them.  A dict is the list of its items,
    looked up from the front; its keys are strings. *)
#[warnings="-register-all"]
Inductive pyval :=
  | VNone
  | VBool (b : bool)
  | VInt (z : Z)
  | VFloat (f : spec_float)
  | VStr (s : string)
  | VList (l : list pyval)
  | VDict (d : list (string * pyval)).

Fixpoint dict_lookup (k : string) (d : list (string * pyval)) : option pyval :=
  match d with
  | [] => None
  | (k', v) :: d' => if String.eqb k' k then Some v else dict_lookup k d'
  end.

(** *** Strings *)

(** [needle in hay] on two strings. *)
Fixpoint contains (needle hay : string) : bool :=
  String.prefix needle hay ||
  match hay with
  | EmptyString => false
  | String _ rest => contains needle rest
  end.

(** [s.split(sep)] for a separator of one character. *)
Fixpoint split (sep : ascii) (s : string) : list string :=
  match s with
  | EmptyString => [EmptyString]
  | String c rest =>
      if Ascii.eqb c sep then EmptyString :: split sep rest
      else match split sep rest with
           | piece :: pieces => String c piece :: pieces
           | [] => [String c EmptyString]  (* [split] is never empty *)
           end
  end.

(** White space as [int] strips it: tab, line feed, vertical tab, form feed,
    carriage return and space, and, in a string that is not plain ASCII,
    next line (0x85) and no-break space (0xA0). *)
Definition is_space (c : ascii) : bool :=
  let n := nat_of_ascii c in
  ((9 <=? n) && (n <=? 13) || (n =? 32) || (n =? 133) || (n =? 160))%nat.

Fixpoint lstrip (s : string) : string :=
  match s with
  | String c rest => if is_space c then lstrip rest else s
  | EmptyString => EmptyString
  end.

Fixpoint rstrip (s : string) : string :=
  match s with
  | EmptyString => EmptyString
  | String c rest =>
      match rstrip rest with
      | EmptyString => if is_space c then EmptyString else String c EmptyString
      | rest' => String c rest'
      end
  end.

Definition strip (s : string) : string := rstrip (lstrip s).

Definition digit_value (c : ascii) : option Z :=
  let n := nat_of_ascii c in
  if ((48 <=? n) && (n <=? 57))%nat then Some (Z.of_nat n - 48) else None.

(** The digits of a base-10 literal: at least one digit, single underscores
    allowed between digits only.  [after_digit] says whether the previous
    character was a digit. *)
Fixpoint parse_digits (acc : Z) (after_digit : bool) (s : string) : option Z :=
  match s with
  | EmptyString => if after_digit then Some acc else None
  | String c rest =>
      match digit_value c with
      | Some d => parse_digits (10 * acc + d) true rest
      | None =>
          if Ascii.eqb c "_" && after_digit then parse_digits acc false rest
          else None
      end
  end.

(** [int(s)] for a string: [None] stands for ValueError.  (The interpreter's
    configurable limit on the number of digits is left out.) *)
Definition int_of_str (s : string) : option Z :=
  match strip s with
  | String "+" digits => parse_digits 0 false digits
  | String "-" digits => option_map Z.opp (parse_digits 0 false digits)
  | digits => parse_digits 0 false digits
  end.

(** *** Floats *)

(** Binary64, as [spec_float] with 53 bits of precision. *)
Definition prec : Z := 53.
Definition emax : Z := 1024.

(** [int(f)] for a float: truncation towards zero. *)
Definition int_of_float (f : spec_float) : pyres Z :=
  match f with
  | S754_zero _ => Val 0
  | S754_infinity _ => Exc OverflowError
  | S754_nan => Exc ValueError
  | S754_finite s m e =>
      let magnitude :=
        match e with
        | Zneg p => Z.shiftr (Zpos m) (Zpos p)
        | _ => Z.shiftl (Zpos m) e
        end in
      Val (if s then - magnitude else magnitude)
  end.

(** [a / b] on two ints: the quotient rounded once, to the nearest float. *)
Definition int_truediv (a b : Z) : pyres spec_float :=
  match a, b with
  | _, Z0 => Exc ZeroDivisionError
  | Z0, _ => Val (S754_zero (b <? 0))
  | _, _ =>
      match SFdiv prec emax
              (S754_finite (a <? 0) (Z.to_pos (Z.abs a)) 0)
              (S754_finite (b <? 0) (Z.to_pos (Z.abs b)) 0) with
      | S754_infinity _ => Exc OverflowError
      | q => Val q
      end
  end.

(** [x / y] on two floats. *)
Definition float_truediv (x y : spec_float) : pyres spec_float :=
  match y with
  | S754_zero _ => Exc ZeroDivisionError
  | _ => Val (SFdiv prec emax x y)
  end.

(** *** Operations on values *)

(** [v == s] for a string literal [s]. *)
Definition eq_str (v : pyval) (s : string) : bool :=
  match v with
  | VStr t => String.eqb t s
  | _ => false
  end.

(** [v[k]] with a string key. *)
Definition getitem (v : pyval) (k : string) : pyres pyval :=
  match v with
  | VDict d => match dict_lookup k d with
               | Some x => Val x
               | None => Exc KeyError
               end
  | _ => Exc TypeError
  end.

(** [v[n]] with a literal index [n >= 0]. *)
Definition index (v : pyval) (n : nat) : pyres pyval :=
  match v with
  | VList l => match nth_error l n with
               | Some x => Val x
               | None => Exc IndexError
               end
  | VStr s => match String.get n s with
              | Some c => Val (VStr (String c EmptyString))
              | None => Exc IndexError
              end
  | VDict _ => Exc KeyError
  | _ => Exc TypeError
  end.

(** [k in v] for a string [k]. *)
Definition key_in (k : string) (v : pyval) : pyres bool :=
  match v with
  | VDict d =>
      Val (match dict_lookup k d with Some _ => true | None => false end)
  | VList l => Val (existsb (fun x => eq_str x k) l)
  | VStr s => Val (contains k s)
  | _ => Exc TypeError
  end.

(** [v.get(k, default)]. *)
Definition get (v : pyval) (k : string) (default : pyval) : pyres pyval :=
  match v with
  | VDict d =>
      Val (match dict_lookup k d with Some x => x | None => default end)
  | _ => Exc AttributeError
  end.

(** [v.split(sep)]. *)
Definition split_val (v : pyval) (sep : ascii) : pyres (list string) :=
  match v with
  | VStr s => Val (split sep s)
  | _ => Exc AttributeError
  end.

(** [l[n]] on a list of strings. *)
Definition nth_str (l : list string) (n : nat) : pyres string :=
  match nth_error l n with
  | Some s => Val s
  | None => Exc IndexError
  end.

(** [int(s)] on a string. *)
Definition int_str (s : string) : pyres Z :=
  match int_of_str s with
  | Some z => Val z
  | None => Exc ValueError
  end.

(** [int(v)]. *)
Definition int (v : pyval) : pyres Z :=
  match v with
  | VInt z => Val z
  | VBool b => Val (if b then 1 else 0)
  | VFloat f => int_of_float f
  | VStr s => int_str s
  | VNone | VList _ | VDict _ => Exc TypeError
  end.

End Py.

Import Py.

(** ** The outside world *)

(** What [subprocess.run] returns: a [CompletedProcess] with the exit status
    and the two captured, decoded streams. *)
Record CompletedProcess := mkCompleted {
  returncode : Z;
  stdout : string;
  stderr : string
}.

(** [subprocess.run(command, ...)] either returns or raises: an OSError when
    the program cannot be spawned, a UnicodeDecodeError when what the process
    wrote cannot be decoded.  Neither function passes [check=True]. *)
Inductive run_result :=
  | Completed (result : CompletedProcess)
  | SpawnError (err : pyexc).

(** ** Outcomes of [get_video_properties] *)

(** A value, or an exception of class [c] raised at source line [line]. *)
Inductive outcome (A : Type) :=
  | Ok (a : A)
  | Raise (line : nat) (c : exc_class).
Arguments Ok {A} a.
Arguments Raise {A} line c.

Definition at_line {A} (line : nat) (r : pyres A) : outcome A :=
  match r with
  | Val a => Ok a
  | Exc c => Raise line c
  end.

Definition bind {A B} (m : outcome A) (k : A -> outcome B) : outcome B :=
  match m with
  | Ok a => k a
  | Raise line c => Raise line c
  end.

Notation "x <- m ;; k" := (bind m (fun x => k))
  (at level 61, m at next level, right associativity).

(** The dict that [get_video_properties] returns (lines 53-71). *)
Record video_properties := mkProperties {
  format_name : pyval;
  format_level : pyval;
  codec_name : pyval;
  format_profile : pyval;
  width : Z;
  height : Z;
  bit_rate : Z;
  frame_rate : spec_float;
  display_aspect_ratio : spec_float;
  color_space : pyval;
  chroma_subsampling : pyval;
  bit_depth : Z;
  scan_type : string;
  scan_order : string;
  gop_m : Z;
  gop_n : Z
}.

(** ** [get_video_properties] *)

Section Extractor.

Variable subprocess_run : list string -> run_result.
(** [json.loads]; [None] stands for JSONDecodeError.  (The RecursionError of
    the parser on a deeply nested document is left out.) *)
Variable json_loads : string -> option pyval.
(** [float] on a string; [None] stands for ValueError. *)
Variable float_of_str : string -> option spec_float.

Definition float_str (s : string) : pyres spec_float :=
  match float_of_str s with
  | Some f => Val f
  | None => Exc ValueError
  end.

(** Lines 23-30. *)
Definition ffprobe_command (video_path : string) : list string :=
  [ "ffprobe";
    "-v"; "error";
    "-select_streams"; "v:0";
    "-show_entries"; "stream";
    "-of"; "json";
    video_path ].

(** Lines 33-34: run the process and parse what it wrote.  The exit status
    of the process is not looked at. *)
Definition probe (video_path : string) : outcome pyval :=
  match subprocess_run (ffprobe_command video_path) with
  | SpawnError err => Raise 33 (exc_type err)
  | Completed result =>
      match json_loads (stdout result) with
      | Some video_info => Ok video_info
      | None => Raise 34 JSONDecodeError
      end
  end.

(** Line 37: [video_info['streams'][0]]. *)
Definition first_stream (video_info : pyval) : outcome pyval :=
  streams <- at_line 37 (getitem video_info "streams") ;;
  at_line 37 (index streams 0).

(** Lines 33-37 together. *)
Definition selected_stream (video_path : string) : outcome pyval :=
  video_info <- probe video_path ;;
  first_stream video_info.

(** Lines 40-41.  Unpacking [map(int, ...)] into two names converts the
    pieces in order and raises ValueError unless there are exactly two. *)
Definition frame_rate_of (video_stream : pyval) : outcome spec_float :=
  field <- at_line 40 (getitem video_stream "r_frame_rate") ;;
  pieces <- at_line 40 (split_val field "/") ;;
  match pieces with
  | [num; den] =>
      frame_rate_num <- at_line 40 (int_str num) ;;
      frame_rate_den <- at_line 40 (int_str den) ;;
      at_line 41 (int_truediv frame_rate_num frame_rate_den)
  | _ => Raise 40 ValueError
  end.

(** Line 44. *)
Definition display_aspect_ratio_of (video_stream : pyval)
  : outcome spec_float :=
  field0 <- at_line 44 (getitem video_stream "display_aspect_ratio") ;;
  pieces0 <- at_line 44 (split_val field0 ":") ;;
  piece0 <- at_line 44 (nth_str pieces0 0) ;;
  w <- at_line 44 (float_str piece0) ;;
  field1 <- at_line 44 (getitem video_stream "display_aspect_ratio") ;;
  pieces1 <- at_line 44 (split_val field1 ":") ;;
  piece1 <- at_line 44 (nth_str pieces1 1) ;;
  h <- at_line 44 (float_str piece1) ;;
  at_line 44 (float_truediv w h).

(** [int(gop_info[i].split('=')[1])], lines 50 and 51. *)
Definition gop_entry (line : nat) (gop_info : list string) (i : nat)
  : outcome Z :=
  token <- at_line line (nth_str gop_info i) ;;
  value <- at_line line (nth_str (split "=" token) 1) ;;
  at_line line (int_str value).

(** Lines 47-51. *)
Definition gop_of (video_stream : pyval) : outcome (Z * Z) :=
  has_tags <- at_line 48 (key_in "tags" video_stream) ;;
  if has_tags : bool then
    tags <- at_line 48 (getitem video_stream "tags") ;;
    has_gop_size <- at_line 48 (key_in "gop_size" tags) ;;
    if has_gop_size : bool then
      tags' <- at_line 49 (getitem video_stream "tags") ;;
      gop_size <- at_line 49 (getitem tags' "gop_size") ;;
      gop_info <- at_line 49 (split_val gop_size ",") ;;
      m <- gop_entry 50 gop_info 0 ;;
      n <- gop_entry 51 gop_info 1 ;;
      Ok (m, n)
    else Ok (0, 0)
  else Ok (0, 0).

(** Line 66. *)
Definition scan_type_of (video_stream : pyval) : outcome string :=
field_order <-
  at_line 66 (get video_stream "field_order" (VStr "progressive")) ;;
  Ok (if negb (eq_str field_order "progressive")
      then "interlaced" else "progressive").

(** Line 67. *)
Definition scan_order_of (video_stream : pyval) : outcome string :=
  field_order <- at_line 67 (get video_stream "field_order" (VStr "bb")) ;;
  if eq_str field_order "tt" then Ok "TFF"
  else
    field_order' <- at_line 67 (get video_stream "field_order" (VStr "tt")) ;;
    if eq_str field_order' "bb" then Ok "BFF" else Ok "Progressive".

(** [int(video_stream.get(key, default))], lines 60 and 65. *)
Definition int_get (line : nat) (video_stream : pyval) (key default : string)
  : outcome Z :=
  field <- at_line line (get video_stream key (VStr default)) ;;
  at_line line (int field).

(** [int(video_stream[key])], lines 58 and 59. *)
Definition int_item (line : nat) (video_stream : pyval) (key : string)
  : outcome Z :=
  field <- at_line line (getitem video_stream key) ;;
  at_line line (int field).

(** Lines 40-73: everything after the stream has been selected. *)
Definition properties_of_stream (video_stream : pyval)
  : outcome video_properties :=
  frame_rate <- frame_rate_of video_stream ;;
  display_aspect_ratio <- display_aspect_ratio_of video_stream ;;
  gop <- gop_of video_stream ;;
  format_name <- at_line 54 (getitem video_stream "codec_name") ;;
  format_level <- at_line 55 (getitem video_stream "level") ;;
  codec_name <- at_line 56 (getitem video_stream "codec_name") ;;
  format_profile <-
    at_line 57 (get video_stream "profile" (VStr EmptyString)) ;;
  width <- int_item 58 video_stream "width" ;;
  height <- int_item 59 video_stream "height" ;;
  bit_rate <- int_get 60 video_stream "bit_rate" "0" ;;
  color_space <-
    at_line 63 (get video_stream "color_space" (VStr EmptyString)) ;;
  chroma_subsampling <-
    at_line 64 (get video_stream "pix_fmt" (VStr EmptyString)) ;;
  bit_depth <- int_get 65 video_stream "bits_per_raw_sample" "8" ;;
  scan_type <- scan_type_of video_stream ;;
  scan_order <- scan_order_of video_stream ;;
  Ok {| format_name := format_name;
        format_level := format_level;
        codec_name := codec_name;
        format_profile := format_profile;
        width := width;
        height := height;
        bit_rate := bit_rate;
        frame_rate := frame_rate;
        display_aspect_ratio := display_aspect_ratio;
        color_space := color_space;
        chroma_subsampling := chroma_subsampling;
        bit_depth := bit_depth;
        scan_type := scan_type;
        scan_order := scan_order;
        gop_m := fst gop;
        gop_n := snd gop |}.

Definition get_video_properties (video_path : string)
  : outcome video_properties :=
  video_stream <- selected_stream video_path ;;
  properties_of_stream video_stream.

End Extractor.

(** ** [convert_video_to_requirements] *)

(** How a call ends, and what it printed before that. *)
Inductive termination :=
  | Returns
  | Raises (err : pyexc).

Record effect := mkEffect {
  printed : list string;
  ending : termination
}.

(** The defaults of the keyword arguments (lines 76-77). *)
Definition default_video_codec : string := "h264_videotoolbox".
Definition default_resolution : string := "1920x1080".
Definition default_bitrate : string := "50M".
Definition default_audio_codec : string := "pcm_s16le".

(** Lines 89-113: the argument list. *)
Definition ffmpeg_command
    (input_video_path output_video_path
     video_codec resolution bitrate audio_codec : string) : list string :=
  let command :=
    [ "ffmpeg";
      "-i"; input_video_path;
      "-c:v"; video_codec;
      "-profile:v"; "4:2:2";
      "-g"; "12";
      "-b:v"; bitrate;
      "-minrate"; bitrate;
      "-maxrate"; bitrate;
      "-bufsize"; bitrate;
      "-vf"; "scale=" ++ resolution ++ ",setfield=mode=tff";
      "-aspect"; "16:9";
      "-r"; "25";
      "-c:a"; audio_codec;
      "-ar"; "48k";
      "-ac"; "2";
      "-b:a"; "1536k" ] in
  let command :=
    if String.eqb video_codec "h264_videotoolbox"
    then ((command ++ ["-pix_fmt"]) ++ ["nv12"])%list
    else command in
  (command ++ [output_video_path])%list.

Section Converter.

Variable subprocess_run : list string -> run_result.

(** Lines 117-121: the body of the [try]. *)
Definition conversion_attempt (command : list string) : effect :=
  match subprocess_run command with
  | SpawnError err => mkEffect [] (Raises err)
  | Completed result =>
      if negb (returncode result =? 0)
      then mkEffect []
             (Raises (mkExc RuntimeError
                        ("ffmpeg conversion failed: " ++ stderr result)))
      else mkEffect ["Video conversion completed successfully."] Returns
  end.

(** Line 122: [except (RuntimeError, subprocess.CalledProcessError)]. *)
Definition handled (err : pyexc) : bool :=
  issubclass (exc_type err) RuntimeError
  || issubclass (exc_type err) CalledProcessError.

(** Lines 116-123: the [try] with its handler, which prints the error. *)
Definition convert_video_to_requirements
    (input_video_path output_video_path
     video_codec resolution bitrate audio_codec : string) : effect :=
  let command :=
    ffmpeg_command input_video_path output_video_path
                   video_codec resolution bitrate audio_codec in
  let attempt := conversion_attempt command in
  match ending attempt with
  | Returns => attempt
  | Raises err =>
      if handled err
      then mkEffect
             (printed attempt
              ++ [("Error during conversion: " ++ exc_str err)%string])%list
             Returns
      else attempt
  end.

End Converter.

(** ** The vocabulary of the specification *)

(** The kinds of failure of the extractor, by the step that raises: running
    and parsing (lines 33-34), selecting the stream (line 37), reading the
    fields (lines 40-67). *)
Inductive error_kind :=
  | ProbeError
  | MissingStreamError
  | MalformedFieldError.

Definition kind_of_line (line : nat) : error_kind :=
  if (line <=? 34)%nat then ProbeError
  else if (line <=? 37)%nat then MissingStreamError
  else MalformedFieldError.

Definition failure_kind {A} (o : outcome A) : option error_kind :=
  match o with
  | Ok _ => None
  | Raise line _ => Some (kind_of_line line)
  end.

(** The value of a field of [v], when [v] is a JSON object that has the
    field. *)
Definition field_of (v : pyval) (key : string) : option pyval :=
  match v with
  | VDict d => dict_lookup key d
  | _ => None
  end.

(** The character [c] occurs in [s]. *)
Fixpoint occurs (c : ascii) (s : string) : bool :=
  match s with
  | EmptyString => false
  | String a rest => Ascii.eqb a c || occurs c rest
  end.

(** A string accepted by [int]. *)
Definition int_literal (s : string) : Prop := int_of_str s <> None.

(** "num/den": two integer literals around one slash. *)
Definition num_den_form (s : string) : Prop :=
  exists num den : string,
    s = num ++ String "/" den /\ int_literal num /\ int_literal den.

(** [f] is a normal positive binary64 number within half a unit in the last
    place of the quotient [a / b]. *)
Definition rounds_quotient (f : spec_float) (a b : Z) : Prop :=
  match f with
  | S754_finite false m (Zneg p) =>
      Zpos (digits2_pos m) = prec /\
      2 * Z.abs (Zpos m * b - a * 2 ^ Zpos p) <= b
  | _ => False
  end.

(** Two adjacent arguments [flag value] in a command line. *)
Fixpoint has_option (flag value : string) (command : list string) : bool :=
  match command with
  | a :: (b :: _) as rest =>
      (String.eqb a flag && String.eqb b value) || has_option flag value rest
  | _ => false
  end.

(** ** Sample runs, used to exercise the statements below *)

Definition quote (s : string) : string :=
  String "034" (s ++ String "034" EmptyString).

Definition member (key value : string) : string :=
  quote key ++ ": " ++ quote value.

(** What the probe writes when it finds nothing to report. *)
Definition empty_document : string :=
  String "{" (String "010" (String "010" "}")).

Definition no_stream_document : string :=
  "{" ++ quote "streams" ++ ": []}".

Definition stream_document : string :=
  "{" ++ quote "streams" ++ ": [{"
  ++ member "codec_name" "h264" ++ ", "
  ++ member "profile" "High" ++ ", "
  ++ quote "width" ++ ": 1920, "
  ++ quote "height" ++ ": 1080, "
  ++ member "pix_fmt" "yuv420p" ++ ", "
  ++ quote "level" ++ ": 40, "
  ++ member "field_order" "tt" ++ ", "
  ++ member "r_frame_rate" "30000/1001" ++ ", "
  ++ member "display_aspect_ratio" "16:9" ++ ", "
  ++ member "bit_rate" "5000000" ++ ", "
  ++ member "bits_per_raw_sample" "8" ++ ", "
  ++ quote "tags" ++ ": {" ++ member "language" "eng" ++ "}}]}".

Definition sample_stream : pyval :=
  VDict [ ("codec_name", VStr "h264");
          ("profile", VStr "High");
          ("width", VInt 1920);
          ("height", VInt 1080);
          ("pix_fmt", VStr "yuv420p");
          ("level", VInt 40);
          ("field_order", VStr "tt");
          ("r_frame_rate", VStr "30000/1001");
          ("display_aspect_ratio", VStr "16:9");
          ("bit_rate", VStr "5000000");
          ("bits_per_raw_sample", VStr "8");
          ("tags", VDict [("language", VStr "eng")]) ].

(** The same stream with its frame-rate field replaced. *)
Definition stream_with_rate (rate : pyval) : pyval :=
  VDict [ ("r_frame_rate", rate);
          ("codec_name", VStr "h264");
          ("width", VInt 1920);
          ("height", VInt 1080);
          ("level", VInt 40);
          ("display_aspect_ratio", VStr "16:9") ].

Definition bad_rate_document : string :=
  "{" ++ quote "streams" ++ ": [{"
  ++ member "r_frame_rate" "25" ++ ", "
  ++ member "codec_name" "h264" ++ ", "
  ++ quote "width" ++ ": 1920, "
  ++ quote "height" ++ ": 1080, "
  ++ quote "level" ++ ": 40, "
  ++ member "display_aspect_ratio" "16:9" ++ "}]}".

(** A parser that knows the documents above and rejects every other text. *)
Definition sample_loads (text : string) : option pyval :=
  dict_lookup text
    [ (empty_document, VDict []);
      (no_stream_document, VDict [("streams", VList [])]);
      (stream_document, VDict [("streams", VList [sample_stream])]);
      (bad_rate_document,
       VDict [("streams", VList [stream_with_rate (VStr "25")])]) ].

(** [float] on the decimal integer literals that the samples contain. *)
Definition sample_float (s : string) : option spec_float :=
  option_map (fun z => binary_normalize prec emax z 0 false) (int_of_str s).

(** A probe that exits with [code] after writing [out] and [err]. *)
Definition run_writes (code : Z) (out err : string)
  : list string -> run_result :=
  fun _ => Completed (mkCompleted code out err).

(** A probe that succeeds after writing [out]. *)
Definition probe_prints (out : string) : list string -> run_result :=
  run_writes 0 out EmptyString.

(** A transcoder that fails with [err] on its standard error. *)
Definition ffmpeg_fails (err : string) : list string -> run_result :=
  run_writes 1 EmptyString err.

(** No such program: spawning fails. *)
Definition run_not_found (program : string) : list string -> run_result :=
  fun _ => SpawnError
    (mkExc FileNotFoundError
       ("[Errno 2] No such file or directory: '" ++ program ++ "'")).

(** ** The page script (lines 126-153) *)

(** The script runs from top to bottom on every interaction.  One run is
    modelled by what it is given (the uploaded file, if any, and whether the
    button was pressed) and by the trace of what it does: the calls to the
    page library, the file it saves and the lines that the converter
    prints. *)

Module Page.

(** The uploaded file: its name and what [read()] returns. *)
Record UploadedFile := mkUpload {
  name : string;
  content : string
}.

Inductive event :=
  | Title (text : string)
  | FileUploader (label : string) (types : list string)
  | SaveFile (path data : string)
  | WriteProperties (props : video_properties)
  | WriteText (text : string)
  | Button (label : string)
  | DownloadButton (label data file_name mime : string)
  | Print (line : string).

(** How a run ends: normally, with an exception of the extractor (line and
    class) or with an exception object of the file system or the converter. *)
Inductive run_end :=
  | Done
  | ExtractorRaised (line : nat) (c : exc_class)
  | Raised (err : pyexc).

Record run := mkRun {
  events : list event;
  run_ending : run_end
}.

Section Script.

Variable subprocess_run : list string -> run_result.
Variable json_loads : string -> option pyval.
Variable float_of_str : string -> option spec_float.
(** Lines 133-134, [open(path, "wb")] and [f.write(data)]: [None] when the
    file is written, the exception otherwise. *)
Variable save_file : string -> string -> option pyexc.

(** Lines 126-128. *)
Definition header : list event :=
  [ Title "Video Quality checker Tool";
    FileUploader "Choose a video..." ["mp4"; "mov"; "avi"; "mkv"; "mxf"] ].

(** Lines 147-153. *)
Definition download_offer : list event :=
  [ WriteText "Download the converted file";
    DownloadButton "Download" "output.mxf" "output.mxf" "video/mxf" ].

(** Lines 126-153. *)
Definition script (uploaded_file : option UploadedFile) (button : bool)
  : run :=
  match uploaded_file with
  | None => mkRun header Done
  | Some file =>
      let temporary_location := "./" ++ name file in
      match save_file temporary_location (content file) with
      | Some err => mkRun header (Raised err)
      | None =>
          let saved :=
            (header ++ [SaveFile temporary_location (content file)])%list in
          match get_video_properties subprocess_run json_loads float_of_str
                                     temporary_location with
          | Raise line c => mkRun saved (ExtractorRaised line c)
          | Ok video_properties =>
              let shown :=
                (saved ++ [WriteProperties video_properties;
                           Button "Convert to XDCAM HD422"])%list in
              if button then
                let conversion :=
                  convert_video_to_requirements subprocess_run
                    temporary_location "output.mxf"
                    default_video_codec default_resolution
                    default_bitrate default_audio_codec in
                let converted :=
                  (shown ++ map Print (printed conversion))%list in
                match ending conversion with
                | Raises err => mkRun converted (Raised err)
                | Returns =>
                    mkRun (converted
                           ++ WriteText "Conversion completed"
                              :: download_offer)%list
                          Done
                end
              else mkRun shown Done
          end
      end
  end.

End Script.

End Page.

(** ** More sample data *)

(** A parser that reads every text as the document [video_info]. *)
Definition loads_as (video_info : pyval) : string -> option pyval :=
  fun _ => Some video_info.

(** A probe output with the single stream [video_stream]. *)
Definition one_stream (video_stream : pyval) : pyval :=
  VDict [("streams", VList [video_stream])].

(** The fields that every returned record needs. *)
Definition required_fields : list (string * pyval) :=
  [ ("r_frame_rate", VStr "25/1");
    ("display_aspect_ratio", VStr "16:9");
    ("codec_name", VStr "mpeg2video");
    ("level", VInt 8);
    ("width", VInt 1920);
    ("height", VInt 1080) ].

(** A stream with [fields] in front of the required ones. *)
Definition stream_with (fields : list (string * pyval)) : pyval :=
  VDict (fields ++ required_fields).

(** A stream without an aspect ratio. *)
Definition stream_without_ratio : pyval :=
  VDict [ ("r_frame_rate", VStr "25/1");
          ("codec_name", VStr "mpeg2video");
          ("level", VInt 8);
          ("width", VInt 1920);
          ("height", VInt 1080) ].

(** Every program runs and exits with [code], writing [err]. *)
Definition run_exits (code : Z) (err : string) : list string -> run_result :=
  fun _ => Completed (mkCompleted code "{}" err).

(** The probe runs; the transcoder is the program [ffmpeg] and does [other]. *)
Definition run_probe_then (other : run_result) : list string -> run_result :=
  fun command =>
    match command with
    | program :: _ =>
        if String.eqb program "ffprobe"
        then Completed (mkCompleted 0 "{}" EmptyString)
        else other
    | [] => other
    end.

Definition always_saved : string -> string -> option pyexc :=
  fun _ _ => None.

Definition sample_upload : Page.UploadedFile :=
  Page.mkUpload "clip.mp4" "....".

(** The exception classes that [get_video_properties] can let out once
    the probe output has been parsed. *)
Definition extractor_classes : list exc_class :=
  [ KeyError; IndexError; TypeError; AttributeError;
    ValueError; ZeroDivisionError; OverflowError ].

(** ** Basic facts about outcomes *)

Lemma bind_Ok_inv {A B} (m : outcome A) (k : A -> outcome B) (b : B) :
  bind m k = Ok b -> exists a, m = Ok a /\ k a = Ok b.
Proof.
  destruct m as [a | line c]; simpl; intro H.
  - exists a. split; [reflexivity | exact H].
  - discriminate H.
Qed.

Lemma bind_Raise_inv {A B} (m : outcome A) (k : A -> outcome B) line c :
  bind m k = Raise line c ->
  m = Raise line c \/ exists a, m = Ok a /\ k a = Raise line c.
Proof.
  destruct m as [a | line' c']; simpl; intro H.
  - right. exists a. split; [reflexivity | exact H].
  - left. inversion H. reflexivity.
Qed.

Lemma at_line_Ok_inv {A} line (r : pyres A) (a : A) :
  at_line line r = Ok a -> r = Val a.
Proof.
  destruct r; simpl; intro H; [congruence | discriminate H].
Qed.

Lemma at_line_Raise_inv {A} line (r : pyres A) line' c :
  at_line line r = Raise line' c -> line' = line /\ r = Exc c.
Proof.
  destruct r; simpl; intro H; [discriminate H | inversion H; auto].
Qed.

Lemma eq_str_true (v : pyval) (s : string) :
  eq_str v s = true <-> v = VStr s.
Proof.
  destruct v; simpl; try (split; [discriminate | intro H; discriminate H]).
  rewrite String.eqb_eq. split; intro H; [subst; reflexivity | congruence].
Qed.

Lemma getitem_Val_dict (v x : pyval) (k : string) :
  getitem v k = Val x -> exists d, v = VDict d /\ dict_lookup k d = Some x.
Proof.
  destruct v; simpl; try discriminate.
  destruct (dict_lookup k d) eqn:E; [ | discriminate].
  intro H. inversion H. subst. eauto.
Qed.

(** Peel the binds of a successful run, one at a time. *)
Tactic Notation "peel" hyp(H) "as" ident(a) ident(E) :=
  apply bind_Ok_inv in H; destruct H as (a & E & H).

Section ExtractorFacts.

Variable subprocess_run : list string -> run_result.
Variable json_loads : string -> option pyval.
Variable float_of_str : string -> option spec_float.

Local Abbreviation inspect :=
  (get_video_properties subprocess_run json_loads float_of_str).
Local Abbreviation stream_of := (selected_stream subprocess_run json_loads).

Lemma inspect_Ok_inv path props :
  inspect path = Ok props ->
  exists video_stream,
    stream_of path = Ok video_stream /\
    properties_of_stream float_of_str video_stream = Ok props.
Proof. intro H. apply bind_Ok_inv in H. exact H. Qed.

Lemma inspect_after_selection path video_stream :
  stream_of path = Ok video_stream ->
  inspect path = properties_of_stream float_of_str video_stream.
Proof.
  intro H. unfold get_video_properties. rewrite H. reflexivity.
Qed.

(** A stream whose frame rate can be read is a JSON object. *)
Lemma frame_rate_of_Ok_dict video_stream f :
  frame_rate_of video_stream = Ok f -> exists d, video_stream = VDict d.
Proof.
  unfold frame_rate_of. intro H. peel H as field E.
  apply at_line_Ok_inv, getitem_Val_dict in E.
  destruct E as (d & -> & _). eauto.
Qed.

(** What a returned record says about the stream it was derived from. *)
Lemma properties_of_stream_Ok video_stream props :
  properties_of_stream float_of_str video_stream = Ok props ->
  frame_rate_of video_stream = Ok (frame_rate props) /\
  gop_of video_stream = Ok (gop_m props, gop_n props) /\
  scan_type_of video_stream = Ok (scan_type props) /\
  scan_order_of video_stream = Ok (scan_order props).
Proof.
  unfold properties_of_stream. intro H.
  peel H as rate Hrate. peel H as ratio Hratio. peel H as gop Hgop.
  peel H as name Hname. peel H as level Hlevel. peel H as codec Hcodec.
  peel H as profile Hprofile. peel H as w Hw. peel H as h Hh.
  peel H as bits Hbits. peel H as space Hspace. peel H as chroma Hchroma.
  peel H as depth Hdepth. peel H as type Htype. peel H as order Horder.
  inversion H; subst; clear H. simpl.
  destruct gop as [m n]. simpl. auto.
Qed.

End ExtractorFacts.

(** ** [str.split] and [int] on strings *)

Section SplitFacts.

Variable sep : ascii.

Lemma split_not_nil (s : string) : split sep s <> [].
Proof.
  destruct s as [ | c rest]; simpl; [discriminate | ].
  destruct (Ascii.eqb c sep); [discriminate | ].
  destruct (split sep rest); discriminate.
Qed.

Lemma split_no_sep (s : string) :
  occurs sep s = false -> split sep s = [s].
Proof.
  induction s as [ | c rest IH]; simpl; [reflexivity | ].
  intro H. apply orb_false_iff in H. destruct H as [Hc Hrest].
  rewrite Hc, (IH Hrest). reflexivity.
Qed.

Lemma split_single (s piece : string) :
  split sep s = [piece] -> s = piece /\ occurs sep s = false.
Proof.
  revert piece. induction s as [ | c rest IH]; simpl; intros piece H.
  - inversion H. auto.
  - destruct (Ascii.eqb c sep) eqn:Hc.
    + inversion H as [[Hp Hrest]]. exfalso. exact (split_not_nil rest Hrest).
    + destruct (split sep rest) as [ | p ps] eqn:Hs.
      * exfalso. exact (split_not_nil rest Hs).
      * inversion H. subst. destruct (IH p eq_refl) as [-> ->]. auto.
Qed.

Lemma split_pair (s a b : string) :
  split sep s = [a; b] ->
  s = a ++ String sep b /\ occurs sep a = false /\ occurs sep b = false.
Proof.
  revert a. induction s as [ | c rest IH]; simpl; intros a H.
  - discriminate H.
  - destruct (Ascii.eqb c sep) eqn:Hc.
    + inversion H as [[Ha Hrest]]. apply split_single in Hrest.
      destruct Hrest as [-> Hb]. apply Ascii.eqb_eq in Hc. subst c.
      simpl. auto.
    + destruct (split sep rest) as [ | p ps] eqn:Hs; [discriminate H | ].
      inversion H. subst.
      destruct (IH p eq_refl) as (-> & Hp & Hb).
      simpl. rewrite Hc, Hp. auto.
Qed.

Lemma split_app (a b : string) :
  occurs sep a = false ->
  split sep (a ++ String sep b) = a :: split sep b.
Proof.
  induction a as [ | c rest IH]; simpl; intro H.
  - rewrite Ascii.eqb_refl. reflexivity.
  - apply orb_false_iff in H. destruct H as [Hc Hrest].
    rewrite Hc, (IH Hrest). reflexivity.
Qed.

End SplitFacts.

Section IntFacts.

(** A character that no integer literal contains. *)
Variable c : ascii.
Hypothesis c_not_space : is_space c = false.
Hypothesis c_not_digit : digit_value c = None.
Hypothesis c_not_underscore : Ascii.eqb c "_" = false.
Hypothesis c_not_plus : Ascii.eqb c "+" = false.
Hypothesis c_not_minus : Ascii.eqb c "-" = false.

Lemma occurs_head (a : ascii) (rest : string) :
  occurs c (String a rest) = true -> a = c \/ occurs c rest = true.
Proof.
  simpl. intro H. apply orb_true_iff in H.
  destruct H as [H | H]; [left; apply Ascii.eqb_eq; exact H | right; exact H].
Qed.

Lemma occurs_lstrip (s : string) :
  occurs c s = true -> occurs c (lstrip s) = true.
Proof.
  induction s as [ | a rest IH]; intro H; [exact H | ].
  simpl. destruct (is_space a) eqn:Ha; [ | exact H].
  apply occurs_head in H. destruct H as [-> | H]; [congruence | auto].
Qed.

Lemma occurs_rstrip (s : string) :
  occurs c s = true -> occurs c (rstrip s) = true.
Proof.
  induction s as [ | a rest IH]; intro H; [exact H | ].
  apply occurs_head in H. simpl.
  destruct H as [-> | H].
  - destruct (rstrip rest); [rewrite c_not_space | ];
      simpl; rewrite Ascii.eqb_refl; reflexivity.
  - specialize (IH H). destruct (rstrip rest) as [ | a' rest'];
      [discriminate IH | ].
    change (occurs c (String a (String a' rest')) = true).
    simpl in IH |- *. rewrite IH. apply orb_true_r.
Qed.

Lemma parse_digits_occurs (s : string) (acc : Z) (after_digit : bool) :
  occurs c s = true -> parse_digits acc after_digit s = None.
Proof.
  revert acc after_digit.
  induction s as [ | a rest IH]; intros acc after_digit H; [discriminate H | ].
  apply occurs_head in H. simpl. destruct H as [-> | H].
  - rewrite c_not_digit, c_not_underscore. reflexivity.
  - destruct (digit_value a); [apply IH; exact H | ].
    destruct (Ascii.eqb a "_" && after_digit);
      [apply IH; exact H | reflexivity].
Qed.

Lemma int_of_str_occurs (s : string) :
  occurs c s = true -> int_of_str s = None.
Proof.
  intro H. apply occurs_lstrip, occurs_rstrip in H.
  unfold int_of_str. fold (strip s) in H.
  destruct (strip s) as [ | a rest] eqn:Hs; [discriminate H | ].
  assert (Hall : parse_digits 0 false (String a rest) = None)
    by (apply parse_digits_occurs; exact H).
  apply occurs_head in H. destruct H as [-> | H].
  - destruct c as [[] [] [] [] [] [] [] []]; try exact Hall;
      discriminate.
  - assert (Hrest : parse_digits 0 false rest = None)
      by (apply parse_digits_occurs; exact H).
    destruct a as [[] [] [] [] [] [] [] []]; try exact Hall;
      rewrite Hrest; reflexivity.
Qed.

End IntFacts.

(** No integer literal contains a slash. *)
Lemma int_literal_no_slash (s : string) :
  int_literal s -> occurs "/" s = false.
Proof.
  intro H. destruct (occurs "/" s) eqn:E; [ | reflexivity].
  exfalso. apply H. apply (int_of_str_occurs "/"); auto.
Qed.

(** Line 40 accepts exactly the strings of the form "num/den": one slash
    between two pieces that [int] converts. *)
Lemma num_den_form_split (s : string) :
  num_den_form s <->
  exists num den, split "/" s = [num; den]
                  /\ int_literal num /\ int_literal den.
Proof.
  split.
  - intros (num & den & -> & Hn & Hd). exists num, den.
    rewrite split_app by (apply int_literal_no_slash; exact Hn).
    rewrite split_no_sep by (apply int_literal_no_slash; exact Hd).
    auto.
  - intros (num & den & Hs & Hn & Hd). exists num, den.
    apply split_pair in Hs. destruct Hs as (-> & _ & _). auto.
Qed.

(** ** Where the extractor can raise *)

Ltac raise_lines :=
  repeat match goal with
  | H : bind _ _ = Raise _ _ |- _ =>
      apply bind_Raise_inv in H; destruct H as [H | (? & ? & H)]
  | H : at_line _ _ = Raise _ _ |- _ =>
      apply at_line_Raise_inv in H; destruct H as [-> _]
  | H : Ok _ = Raise _ _ |- _ => discriminate H
  | H : Raise _ _ = Raise _ _ |- _ => inversion H; subst; clear H
  | H : (if ?b then _ else _) = Raise _ _ |- _ => destruct b
  end.

Lemma frame_rate_of_Raise_line video_stream line c :
  frame_rate_of video_stream = Raise line c -> (line = 40 \/ line = 41)%nat.
Proof.
  unfold frame_rate_of. intro H.
  apply bind_Raise_inv in H. destruct H as [H | (field & _ & H)];
    [raise_lines; auto | ].
  apply bind_Raise_inv in H. destruct H as [H | (pieces & _ & H)];
    [raise_lines; auto | ].
  destruct pieces as [ | num [ | den [ | extra pieces]]];
    raise_lines; auto.
Qed.

Lemma display_aspect_ratio_of_Raise_line float_of_str video_stream line c :
  display_aspect_ratio_of float_of_str video_stream = Raise line c ->
  line = 44%nat.
Proof.
  unfold display_aspect_ratio_of. intro H. raise_lines; reflexivity.
Qed.

(** Once the GOP step has passed, a failure is outside lines 47-51. *)
Lemma properties_of_stream_Raise_line float_of_str video_stream gop line c :
  gop_of video_stream = Ok gop ->
  properties_of_stream float_of_str video_stream = Raise line c ->
  (line < 47 \/ 51 < line)%nat.
Proof.
  unfold properties_of_stream. intros Hgop H. rewrite Hgop in H.
  apply bind_Raise_inv in H. destruct H as [H | (rate & _ & H)].
  { apply frame_rate_of_Raise_line in H. lia. }
  apply bind_Raise_inv in H. destruct H as [H | (ratio & _ & H)].
  { apply display_aspect_ratio_of_Raise_line in H. lia. }
  simpl in H. unfold int_item, int_get, scan_type_of, scan_order_of in H.
  raise_lines; lia.
Qed.

(** The two scan fields of a record, from the stream's [field_order]. *)
Lemma scan_fields video_stream type order :
  scan_type_of video_stream = Ok type ->
  scan_order_of video_stream = Ok order ->
  exists d, video_stream = VDict d /\
    type = match dict_lookup "field_order" d with
           | Some v => if eq_str v "progressive"
                       then "progressive" else "interlaced"
           | None => "progressive"
           end /\
    order = match dict_lookup "field_order" d with
            | Some v => if eq_str v "tt" then "TFF"
                        else if eq_str v "bb" then "BFF" else "Progressive"
            | None => "Progressive"
            end.
Proof.
  unfold scan_type_of, scan_order_of.
  destruct video_stream; simpl; try discriminate.
  intros Htype Horder. exists d. split; [reflexivity | ].
  destruct (dict_lookup "field_order" d) as [v | ]; simpl in *.
  - destruct (eq_str v "progressive"); simpl in Htype;
      inversion Htype; subst; clear Htype.
    + split; [reflexivity | ].
      destruct (eq_str v "tt"); [congruence | ].
      simpl in Horder. destruct (eq_str v "bb"); congruence.
    + split; [reflexivity | ].
      destruct (eq_str v "tt"); [congruence | ].
      simpl in Horder. destruct (eq_str v "bb"); congruence.
  - split; congruence.
Qed.

(** The GOP step on a stream without the tag. *)
Lemma gop_of_default (d : list (string * pyval)) :
  dict_lookup "tags" d = None \/
  (exists tags, dict_lookup "tags" d = Some tags
                /\ key_in "gop_size" tags = Val false) ->
  gop_of (VDict d) = Ok (0, 0).
Proof.
  unfold gop_of. simpl. intros [H | (tags & H & Hin)]; rewrite H; simpl.
  - reflexivity.
  - rewrite Hin. reflexivity.
Qed.

(** The quotient on line 41 for the rate 30000/1001. *)
Lemma int_truediv_30000_1001 :
  int_truediv 30000 1001 = Val (S754_finite false 8435813487831848 (-48)).
Proof. vm_compute. reflexivity. Qed.

(** ** The extractor: failures *)

(** C1. When the parsed probe output has no [streams] entry, or its
    [streams] array is empty, inspection raises on line 37 (KeyError,
    IndexError or TypeError): this is the MissingStreamError of the
    specification, and no property record is returned. *)
Theorem missing_stream_raises
    (subprocess_run : list string -> run_result)
    (json_loads : string -> option pyval)
    (float_of_str : string -> option spec_float)
    (video_path : string) (result : CompletedProcess) (video_info : pyval) :
  subprocess_run (ffprobe_command video_path) = Completed result ->
  json_loads (stdout result) = Some video_info ->
  field_of video_info "streams" = None \/
  field_of video_info "streams" = Some (VList []) ->
  exists c,
    get_video_properties subprocess_run json_loads float_of_str video_path
    = Raise 37 c /\
    failure_kind
      (get_video_properties subprocess_run json_loads float_of_str video_path)
    = Some MissingStreamError.
Proof.
  intros Hrun Hloads Hstreams.
  unfold get_video_properties, selected_stream, probe, first_stream.
  rewrite Hrun, Hloads. simpl.
  destruct video_info; simpl in *;
    try (exists TypeError; split; reflexivity).
  destruct Hstreams as [H | H]; rewrite H; simpl.
  - exists KeyError. split; reflexivity.
  - exists IndexError. split; reflexivity.
Qed.

Lemma missing_stream_raises_witness :
  exists c,
    get_video_properties (probe_prints no_stream_document)
                         sample_loads sample_float "clip.mp4"
    = Raise 37 c /\
    failure_kind
      (get_video_properties (probe_prints no_stream_document)
                            sample_loads sample_float "clip.mp4")
    = Some MissingStreamError.
Proof.
  apply (missing_stream_raises
           (probe_prints no_stream_document) sample_loads sample_float
           "clip.mp4" (mkCompleted 0 no_stream_document EmptyString)
           (VDict [("streams", VList [])])).
  - reflexivity.
  - reflexivity.
  - right. reflexivity.
Defined.

(** C2, as stated, fails: a probe that exits with status 1 after writing a
    document without streams is parsed like any other, and the failure is
    the KeyError of line 37, a MissingStreamError and not a ProbeError. *)
Lemma nonzero_exit_is_not_probe_error :
  returncode
    (mkCompleted 1 empty_document "missing.mp4: No such file or directory")
  <> 0 /\
  get_video_properties
    (run_writes 1 empty_document "missing.mp4: No such file or directory")
    sample_loads sample_float "missing.mp4"
  = Raise 37 KeyError /\
  failure_kind
    (get_video_properties
       (run_writes 1 empty_document "missing.mp4: No such file or directory")
       sample_loads sample_float "missing.mp4")
  <> Some ProbeError.
Proof.
  split; [ | split].
  - simpl. discriminate.
  - reflexivity.
  - simpl. discriminate.
Qed.

(** C2, amended. When the captured standard output is not valid JSON the
    operation raises JSONDecodeError on line 34, a ProbeError, and nothing
    else.  The exit status and the standard error of the probing process are
    not consulted: with the same standard output, any status gives the same
    outcome. *)
Theorem unparsable_output_raises_probe_error
    (subprocess_run : list string -> run_result)
    (json_loads : string -> option pyval)
    (float_of_str : string -> option spec_float)
    (video_path : string) (result : CompletedProcess) :
  subprocess_run (ffprobe_command video_path) = Completed result ->
  (json_loads (stdout result) = None ->
   get_video_properties subprocess_run json_loads float_of_str video_path
   = Raise 34 JSONDecodeError /\
   failure_kind
     (get_video_properties subprocess_run json_loads float_of_str video_path)
   = Some ProbeError) /\
  (forall (code : Z) (err : string),
     get_video_properties (run_writes code (stdout result) err)
                          json_loads float_of_str video_path
     = get_video_properties subprocess_run json_loads float_of_str video_path).
Proof.
  intro Hrun. split.
  - intro Hloads. unfold get_video_properties, selected_stream, probe.
    rewrite Hrun, Hloads. split; reflexivity.
  - intros code err. unfold get_video_properties, selected_stream, probe.
    rewrite Hrun. reflexivity.
Qed.

Lemma unparsable_output_raises_probe_error_witness :
  (get_video_properties (probe_prints "ffprobe: not json")
                        sample_loads sample_float "clip.mp4"
   = Raise 34 JSONDecodeError /\
   failure_kind
     (get_video_properties (probe_prints "ffprobe: not json")
                           sample_loads sample_float "clip.mp4")
   = Some ProbeError) /\
  get_video_properties (run_writes 3 "ffprobe: not json" "failed")
                       sample_loads sample_float "clip.mp4"
  = get_video_properties (probe_prints "ffprobe: not json")
                         sample_loads sample_float "clip.mp4".
Proof.
  destruct (unparsable_output_raises_probe_error
              (probe_prints "ffprobe: not json") sample_loads sample_float
              "clip.mp4" (mkCompleted 0 "ffprobe: not json" EmptyString) eq_refl)
    as [Hparse Hstatus].
  split.
  - apply Hparse. reflexivity.
  - apply (Hstatus 3 "failed").
Defined.

(** C4. When the selected stream has no [r_frame_rate] field, or the field
    is not a string of the form "num/den" with two integers, inspection
    raises on line 40: a MalformedFieldError. *)
Theorem malformed_frame_rate_raises
    (subprocess_run : list string -> run_result)
    (json_loads : string -> option pyval)
    (float_of_str : string -> option spec_float)
    (video_path : string) (video_stream : pyval) :
  selected_stream subprocess_run json_loads video_path = Ok video_stream ->
  field_of video_stream "r_frame_rate" = None \/
  (exists v, field_of video_stream "r_frame_rate" = Some v /\
             ~ exists s, v = VStr s /\ num_den_form s) ->
  exists c,
    get_video_properties subprocess_run json_loads float_of_str video_path
    = Raise 40 c /\
    failure_kind
      (get_video_properties subprocess_run json_loads float_of_str video_path)
    = Some MalformedFieldError.
Proof.
  intros Hstream Hfield.
  rewrite (inspect_after_selection _ _ float_of_str _ _ Hstream).
  unfold properties_of_stream, frame_rate_of.
  destruct video_stream; simpl in *;
    try (exists TypeError; split; reflexivity).
  destruct Hfield as [H | (v & H & Hform)]; rewrite H; simpl.
  { exists KeyError. split; reflexivity. }
  destruct v; simpl; try (exists AttributeError; split; reflexivity).
  destruct (split "/" s) as [ | num [ | den [ | extra pieces]]] eqn:Hs; simpl;
    try (exists ValueError; split; reflexivity).
  unfold int_str.
  destruct (int_of_str num) as [n | ] eqn:Hn; simpl;
    [ | exists ValueError; split; reflexivity].
  destruct (int_of_str den) as [m | ] eqn:Hm; simpl;
    [ | exists ValueError; split; reflexivity].
  exfalso. apply Hform. exists s. split; [reflexivity | ].
  apply num_den_form_split. exists num, den.
  unfold int_literal. rewrite Hn, Hm.
  split; [exact Hs | split; discriminate].
Qed.

Lemma rate_25_is_malformed :
  ~ exists s, VStr "25" = VStr s /\ num_den_form s.
Proof.
  intros (s & Hs & Hform). inversion Hs. subst s.
  apply num_den_form_split in Hform.
  destruct Hform as (num & den & Hsplit & _). discriminate Hsplit.
Qed.

Lemma malformed_frame_rate_raises_witness :
  exists c,
    get_video_properties (probe_prints bad_rate_document)
                         sample_loads sample_float "clip.mp4"
    = Raise 40 c /\
    failure_kind
      (get_video_properties (probe_prints bad_rate_document)
                            sample_loads sample_float "clip.mp4")
    = Some MalformedFieldError.
Proof.
  apply (malformed_frame_rate_raises
           (probe_prints bad_rate_document) sample_loads sample_float
           "clip.mp4" (stream_with_rate (VStr "25"))).
  - reflexivity.
  - right. exists (VStr "25").
    split; [reflexivity | exact rate_25_is_malformed].
Defined.

(** ** The extractor: derived fields *)



(** C10. In every record that the extractor returns, scan order "TFF" or
    "BFF" comes with scan type "interlaced"; a record of scan type
    "progressive" has neither scan order. *)
Theorem field_first_order_is_interlaced
    (subprocess_run : list string -> run_result)
    (json_loads : string -> option pyval)
    (float_of_str : string -> option spec_float)
    (video_path : string) (props : video_properties) :
  get_video_properties subprocess_run json_loads float_of_str video_path
  = Ok props ->
  (scan_order props = "TFF" \/ scan_order props = "BFF" ->
   scan_type props = "interlaced") /\
  (scan_type props = "progressive" ->
   scan_order props <> "TFF" /\ scan_order props <> "BFF").
Proof.
  intro Hprops. apply inspect_Ok_inv in Hprops.
  destruct Hprops as (video_stream & _ & Hprops).
  apply properties_of_stream_Ok in Hprops.
  destruct Hprops as (_ & _ & Htype & Horder).
  destruct (scan_fields _ _ _ Htype Horder) as (d & _ & -> & ->).
  destruct (dict_lookup "field_order" d) as [v | ].
  - pose proof (eq_str_true v "tt") as Htt.
    pose proof (eq_str_true v "bb") as Hbb.
    pose proof (eq_str_true v "progressive") as Hpr.
    destruct (eq_str v "tt"), (eq_str v "bb"), (eq_str v "progressive");
      split; intros; try reflexivity; try (split; discriminate);
      try (exfalso; intuition congruence); intuition discriminate.
  - split; [intros [H | H]; discriminate H | intros _; split; discriminate].
Qed.

Lemma field_first_order_is_interlaced_witness :
  exists props,
    get_video_properties (probe_prints stream_document)
                         sample_loads sample_float "clip.mp4" = Ok props /\
    (scan_order props = "TFF" \/ scan_order props = "BFF" ->
     scan_type props = "interlaced") /\
    (scan_type props = "progressive" ->
     scan_order props <> "TFF" /\ scan_order props <> "BFF").
Proof.
  eexists. split; [reflexivity | ].
  apply (field_first_order_is_interlaced
           (probe_prints stream_document) sample_loads sample_float
           "clip.mp4").
  reflexivity.
Defined.

(** C8. When the selected stream has the frame-rate field "30000/1001", the
    frame rate of the record is the quotient of 30000 by 1001 as line 41
    computes it: the binary64 number nearest to 30000/1001, which is not the
    two-decimal 29.97. *)
Theorem frame_rate_30000_1001_is_the_quotient
    (subprocess_run : list string -> run_result)
    (json_loads : string -> option pyval)
    (float_of_str : string -> option spec_float)
    (video_path : string) (video_stream : pyval)
    (props : video_properties) :
  selected_stream subprocess_run json_loads video_path = Ok video_stream ->
  field_of video_stream "r_frame_rate" = Some (VStr "30000/1001") ->
  get_video_properties subprocess_run json_loads float_of_str video_path
  = Ok props ->
  int_truediv 30000 1001 = Val (frame_rate props) /\
  rounds_quotient (frame_rate props) 30000 1001 /\
  int_truediv 2997 100 <> Val (frame_rate props).
Proof.
  intros Hstream Hfield Hprops.
  rewrite (inspect_after_selection _ _ float_of_str _ _ Hstream) in Hprops.
  apply properties_of_stream_Ok in Hprops.
  destruct Hprops as (Hrate & _).
  destruct video_stream; simpl in Hfield; try discriminate Hfield.
  unfold frame_rate_of, getitem in Hrate. rewrite Hfield in Hrate.
  change (Ok (A := spec_float) (frame_rate props))
    with (at_line 41 (Val (frame_rate props))) in Hrate.
  assert (Hq : at_line 41 (int_truediv 30000 1001)
               = at_line 41 (Val (frame_rate props)))
    by exact Hrate.
  rewrite int_truediv_30000_1001 in Hq |- *.
  inversion Hq as [Hf].
  split; [reflexivity | split].
  - unfold rounds_quotient, prec. split; [reflexivity | ].
    vm_compute. discriminate.
  - vm_compute. discriminate.
Qed.

Lemma frame_rate_30000_1001_is_the_quotient_witness :
  exists props,
    get_video_properties (probe_prints stream_document)
                         sample_loads sample_float "clip.mp4" = Ok props /\
    int_truediv 30000 1001 = Val (frame_rate props) /\
    rounds_quotient (frame_rate props) 30000 1001 /\
    int_truediv 2997 100 <> Val (frame_rate props).
Proof.
  eexists. split; [reflexivity | ].
  apply (frame_rate_30000_1001_is_the_quotient
           (probe_prints stream_document) sample_loads sample_float
           "clip.mp4" sample_stream); reflexivity.
Defined.

(** C9, as stated, fails: a stream whose [tags] entry is null has no
    [gop_size] tag inside it, yet the membership test of line 48 raises
    TypeError and no record is returned. *)
Lemma null_tags_raise_type_error :
  field_of (stream_with [("tags", VNone)]) "tags" = Some VNone /\
  field_of VNone "gop_size" = None /\
  get_video_properties (run_exits 0 EmptyString)
    (loads_as (one_stream (stream_with [("tags", VNone)])))
    sample_float "clip.mxf"
  = Raise 48 TypeError.
Proof. repeat split; reflexivity. Qed.

(** C9, amended. When the selected stream has no [tags] entry, or its
    [tags] entry is a JSON object without a [gop_size] key, the record
    carries the GOP structure (0, 0), and inspection raises nothing on the
    lines of the GOP step (47-51). *)
Theorem gop_defaults_to_zero
    (subprocess_run : list string -> run_result)
    (json_loads : string -> option pyval)
    (float_of_str : string -> option spec_float)
    (video_path : string) (video_stream : pyval) :
  selected_stream subprocess_run json_loads video_path = Ok video_stream ->
  field_of video_stream "tags" = None \/
  (exists tags, field_of video_stream "tags" = Some (VDict tags)
                /\ dict_lookup "gop_size" tags = None) ->
  match get_video_properties subprocess_run json_loads float_of_str
                             video_path with
  | Ok props => gop_m props = 0 /\ gop_n props = 0
  | Raise line _ => (line < 47 \/ 51 < line)%nat
  end.
Proof.
  intros Hstream Htags.
  rewrite (inspect_after_selection _ _ float_of_str _ _ Hstream).
  destruct video_stream;
    try (unfold properties_of_stream, frame_rate_of; simpl; lia).
  simpl in Htags.
  assert (Hgop0 : gop_of (VDict d) = Ok (0, 0)).
  { apply gop_of_default.
    destruct Htags as [H | (tags & H & Hkey)]; [left; exact H | right].
    exists (VDict tags). split; [exact H | ].
    simpl. rewrite Hkey. reflexivity. }
  destruct (properties_of_stream float_of_str (VDict d))
    as [props | line c] eqn:E.
  - apply properties_of_stream_Ok in E. destruct E as (_ & Hgop & _).
    rewrite Hgop0 in Hgop. inversion Hgop. auto.
  - exact (properties_of_stream_Raise_line _ _ _ _ _ Hgop0 E).
Qed.

Lemma gop_defaults_to_zero_witness :
  match get_video_properties (probe_prints stream_document)
                             sample_loads sample_float "clip.mp4" with
  | Ok props => gop_m props = 0 /\ gop_n props = 0
  | Raise line _ => (line < 47 \/ 51 < line)%nat
  end.
Proof.
  apply (gop_defaults_to_zero
           (probe_prints stream_document) sample_loads sample_float
           "clip.mp4" sample_stream).
  - reflexivity.
  - right. exists [("language", VStr "eng")]. split; reflexivity.
Defined.

(** ** The converter *)

(** C6. The command holds the pair [-pix_fmt nv12] exactly when the video
    codec is 'h264_videotoolbox'. *)
Theorem pix_fmt_iff_default_codec
    (input_video_path output_video_path
     video_codec resolution bitrate audio_codec : string) :
  has_option "-pix_fmt" "nv12"
    (ffmpeg_command input_video_path output_video_path
                    video_codec resolution bitrate audio_codec) = true
  <-> video_codec = "h264_videotoolbox".
Proof.
  unfold ffmpeg_command.
  destruct (String.eqb video_codec "h264_videotoolbox") eqn:Hcodec.
  - apply String.eqb_eq in Hcodec. subst video_codec.
    split; [reflexivity | intros _].
    simpl. repeat (rewrite ?andb_false_r, ?orb_true_r; simpl). reflexivity.
  - split.
    + simpl. repeat (rewrite ?andb_false_r; simpl). discriminate.
    + intro H. rewrite H in Hcodec. discriminate Hcodec.
Qed.

(** C5. When the transcoding process exits with status 1 and its standard
    error is "invalid codec", the operation raises the RuntimeError of line
    119 (the ConversionError of the specification); its message contains
    "invalid codec", and so does the line that the handler prints. *)
Theorem invalid_codec_is_reported
    (subprocess_run : list string -> run_result)
    (input_video_path output_video_path
     video_codec resolution bitrate audio_codec : string)
    (result : CompletedProcess) :
  subprocess_run
    (ffmpeg_command input_video_path output_video_path
                    video_codec resolution bitrate audio_codec)
  = Completed result ->
  returncode result = 1 ->
  stderr result = "invalid codec" ->
  exists err,
    ending (conversion_attempt subprocess_run
              (ffmpeg_command input_video_path output_video_path
                              video_codec resolution bitrate audio_codec))
    = Raises err /\
    exc_type err = RuntimeError /\
    contains "invalid codec" (exc_str err) = true /\
    convert_video_to_requirements subprocess_run
      input_video_path output_video_path
      video_codec resolution bitrate audio_codec
    = mkEffect ["Error during conversion: " ++ exc_str err] Returns /\
    contains "invalid codec" ("Error during conversion: " ++ exc_str err)
    = true.
Proof.
  intros Hrun Hcode Herr.
  exists (mkExc RuntimeError "ffmpeg conversion failed: invalid codec").
  unfold convert_video_to_requirements, conversion_attempt.
  rewrite Hrun, Hcode, Herr. simpl.
  repeat split; reflexivity.
Qed.

Lemma invalid_codec_is_reported_witness :
  exists err,
    ending (conversion_attempt (ffmpeg_fails "invalid codec")
              (ffmpeg_command "clip.mp4" "output.mxf" default_video_codec
                 default_resolution default_bitrate default_audio_codec))
    = Raises err /\
    exc_type err = RuntimeError /\
    contains "invalid codec" (exc_str err) = true /\
    convert_video_to_requirements (ffmpeg_fails "invalid codec")
      "clip.mp4" "output.mxf" default_video_codec
      default_resolution default_bitrate default_audio_codec
    = mkEffect ["Error during conversion: " ++ exc_str err] Returns /\
    contains "invalid codec" ("Error during conversion: " ++ exc_str err)
    = true.
Proof.
  apply (invalid_codec_is_reported
           (ffmpeg_fails "invalid codec")
           "clip.mp4" "output.mxf" default_video_codec
           default_resolution default_bitrate default_audio_codec
           (mkCompleted 1 EmptyString "invalid codec")); reflexivity.
Defined.

(** C3. The handler of line 122 is meant to keep conversion failures inside
    the operation, but it names RuntimeError and CalledProcessError only.
    When the transcoding program cannot be found, [subprocess.run] raises
    FileNotFoundError: the handler does not catch it, nothing is printed
    and the error reaches the caller. *)
Lemma spawn_failure_reaches_the_caller :
  convert_video_to_requirements (run_not_found "ffmpeg")
    "clip.mp4" "output.mxf" default_video_codec
    default_resolution default_bitrate default_audio_codec
  = mkEffect []
      (Raises (mkExc FileNotFoundError
                 "[Errno 2] No such file or directory: 'ffmpeg'")).
Proof. reflexivity. Qed.

(** ** What the builtins can raise *)

Lemma getitem_Exc v k c :
  getitem v k = Exc c -> c = KeyError \/ c = TypeError.
Proof.
  destruct v; simpl; try solve [intro H; inversion H; auto].
  destruct (dict_lookup k d); intro H; inversion H; auto.
Qed.

Lemma index_Exc v n c :
  index v n = Exc c -> c = IndexError \/ c = KeyError \/ c = TypeError.
Proof.
  destruct v; simpl; try solve [intro H; inversion H; auto].
  - destruct (String.get n s); intro H; inversion H; auto.
  - destruct (nth_error l n); intro H; inversion H; auto.
Qed.

Lemma key_in_Exc k v c : key_in k v = Exc c -> c = TypeError.
Proof. destruct v; simpl; intro H; inversion H; reflexivity. Qed.

Lemma get_Exc v k default c : get v k default = Exc c -> c = AttributeError.
Proof. destruct v; simpl; intro H; inversion H; reflexivity. Qed.

Lemma split_val_Exc v sep c : split_val v sep = Exc c -> c = AttributeError.
Proof. destruct v; simpl; intro H; inversion H; reflexivity. Qed.

Lemma nth_str_Exc l n c : nth_str l n = Exc c -> c = IndexError.
Proof.
  unfold nth_str. destruct (nth_error l n); intro H; inversion H; reflexivity.
Qed.

Lemma int_str_Exc s c : int_str s = Exc c -> c = ValueError.
Proof.
  unfold int_str. destruct (int_of_str s); intro H; inversion H; reflexivity.
Qed.

Lemma int_Exc v c :
  int v = Exc c -> c = ValueError \/ c = TypeError \/ c = OverflowError.
Proof.
  destruct v; simpl; try solve [intro H; inversion H; auto].
  - destruct f; simpl; intro H; inversion H; auto.
  - intro H. apply int_str_Exc in H. auto.
Qed.

Lemma int_truediv_Exc a b c :
  int_truediv a b = Exc c -> c = ZeroDivisionError \/ c = OverflowError.
Proof.
  unfold int_truediv. destruct a, b; try solve [intro H; inversion H; auto];
    match goal with
    | |- match ?q with _ => _ end = _ -> _ =>
        destruct q; intro H; inversion H; auto
    end.
Qed.

Lemma float_truediv_Exc x y c :
  float_truediv x y = Exc c -> c = ZeroDivisionError.
Proof. destruct y; simpl; intro H; inversion H; reflexivity. Qed.

Lemma float_str_Exc float_of_str s c :
  float_str float_of_str s = Exc c -> c = ValueError.
Proof.
  unfold float_str. destruct (float_of_str s); intro H; inversion H;
    reflexivity.
Qed.

(** Follow a failure of the extractor down to the builtin that raised. *)
Ltac raise_classes :=
  repeat match goal with
  | H : bind _ _ = Raise _ _ |- _ =>
      apply bind_Raise_inv in H; destruct H as [H | (? & ? & H)]
  | H : at_line _ _ = Raise _ _ |- _ =>
      apply at_line_Raise_inv in H; destruct H as [-> H]
  | H : Ok _ = Raise _ _ |- _ => discriminate H
  | H : Raise _ _ = Raise _ _ |- _ => inversion H; subst; clear H
  | H : (if ?b then _ else _) = Raise _ _ |- _ => destruct b
  | H : getitem _ _ = Exc _ |- _ => apply getitem_Exc in H
  | H : index _ _ = Exc _ |- _ => apply index_Exc in H
  | H : key_in _ _ = Exc _ |- _ => apply key_in_Exc in H
  | H : get _ _ _ = Exc _ |- _ => apply get_Exc in H
  | H : split_val _ _ = Exc _ |- _ => apply split_val_Exc in H
  | H : nth_str _ _ = Exc _ |- _ => apply nth_str_Exc in H
  | H : int_str _ = Exc _ |- _ => apply int_str_Exc in H
  | H : int _ = Exc _ |- _ => apply int_Exc in H
  | H : int_truediv _ _ = Exc _ |- _ => apply int_truediv_Exc in H
  | H : float_truediv _ _ = Exc _ |- _ => apply float_truediv_Exc in H
  | H : float_str _ _ = Exc _ |- _ => apply float_str_Exc in H
  end.

Ltac class_found :=
  split; [ | lia];
  repeat match goal with
  | H : _ \/ _ |- _ => destruct H as [H | H]
  end; subst; simpl; tauto.

Lemma properties_of_stream_Raise_class float_of_str video_stream line c :
  properties_of_stream float_of_str video_stream = Raise line c ->
  In c extractor_classes /\ (40 <= line <= 67)%nat.
Proof.
  unfold properties_of_stream. intro H.
  apply bind_Raise_inv in H. destruct H as [H | (rate & _ & H)].
  { unfold frame_rate_of in H.
    apply bind_Raise_inv in H. destruct H as [H | (field & _ & H)];
      [raise_classes; class_found | ].
    apply bind_Raise_inv in H. destruct H as [H | (pieces & _ & H)];
      [raise_classes; class_found | ].
    destruct pieces as [ | num [ | den [ | extra pieces]]];
      raise_classes; class_found. }
  apply bind_Raise_inv in H. destruct H as [H | (ratio & _ & H)].
  { unfold display_aspect_ratio_of in H. raise_classes; class_found. }
  apply bind_Raise_inv in H. destruct H as [H | (gop & _ & H)].
  { unfold gop_of, gop_entry in H. raise_classes; class_found. }
  unfold int_item, int_get, scan_type_of, scan_order_of in H.
  raise_classes; class_found.
Qed.

(** ** The extractor: what a returned record holds *)

(** Every field of a returned record, traced back to the step that made it. *)
Lemma properties_of_stream_Ok_fields float_of_str video_stream props :
  properties_of_stream float_of_str video_stream = Ok props ->
  getitem video_stream "codec_name" = Val (format_name props) /\
  getitem video_stream "level" = Val (format_level props) /\
  getitem video_stream "codec_name" = Val (codec_name props) /\
  get video_stream "profile" (VStr EmptyString) = Val (format_profile props) /\
  int_item 58 video_stream "width" = Ok (width props) /\
  int_item 59 video_stream "height" = Ok (height props) /\
  int_get 60 video_stream "bit_rate" "0" = Ok (bit_rate props) /\
  get video_stream "color_space" (VStr EmptyString)
  = Val (color_space props) /\
  get video_stream "pix_fmt" (VStr EmptyString)
  = Val (chroma_subsampling props) /\
  int_get 65 video_stream "bits_per_raw_sample" "8" = Ok (bit_depth props) /\
  display_aspect_ratio_of float_of_str video_stream
  = Ok (display_aspect_ratio props).
Proof.
  unfold properties_of_stream. intro H.
  peel H as rate Hrate. peel H as ratio Hratio. peel H as gop Hgop.
  peel H as name Hname. peel H as level Hlevel. peel H as codec Hcodec.
  peel H as profile Hprofile. peel H as w Hw. peel H as h Hh.
  peel H as bits Hbits. peel H as space Hspace. peel H as chroma Hchroma.
  peel H as depth Hdepth. peel H as type Htype. peel H as order Horder.
  inversion H; subst; clear H. simpl.
  apply at_line_Ok_inv in Hname, Hlevel, Hcodec, Hprofile, Hspace, Hchroma.
  repeat split; assumption.
Qed.

Lemma int_item_Ok line video_stream key n :
  int_item line video_stream key = Ok n ->
  exists v, field_of video_stream key = Some v /\ int v = Val n.
Proof.
  unfold int_item. intro H. peel H as v Hv.
  apply at_line_Ok_inv in Hv, H.
  apply getitem_Val_dict in Hv. destruct Hv as (d & -> & Hv).
  exists v. split; assumption.
Qed.

Section RecordFacts.

Variable subprocess_run : list string -> run_result.
Variable json_loads : string -> option pyval.
Variable float_of_str : string -> option spec_float.
Variable video_path : string.
Variable video_stream : pyval.
Variable props : video_properties.

Hypothesis selected :
  selected_stream subprocess_run json_loads video_path = Ok video_stream.
Hypothesis returned :
  get_video_properties subprocess_run json_loads float_of_str video_path
  = Ok props.

Lemma returned_from_stream :
  properties_of_stream float_of_str video_stream = Ok props.
Proof.
  rewrite <- (inspect_after_selection _ _ float_of_str _ _ selected).
  exact returned.
Qed.

Lemma returned_stream_is_dict : exists d, video_stream = VDict d.
Proof.
  destruct (properties_of_stream_Ok _ _ _ returned_from_stream)
    as (Hrate & _).
  exact (frame_rate_of_Ok_dict _ _ Hrate).
Qed.

End RecordFacts.

(** X1. Without a [field_order] in the selected stream, a returned record
    has scan type "progressive" and scan order "Progressive". *)
Theorem absent_field_order_is_progressive
    (subprocess_run : list string -> run_result)
    (json_loads : string -> option pyval)
    (float_of_str : string -> option spec_float)
    (video_path : string) (video_stream : pyval)
    (props : video_properties) :
  selected_stream subprocess_run json_loads video_path = Ok video_stream ->
  field_of video_stream "field_order" = None ->
  get_video_properties subprocess_run json_loads float_of_str video_path
  = Ok props ->
  scan_type props = "progressive" /\ scan_order props = "Progressive".
Proof.
  intros Hstream Hfield Hprops.
  pose proof (returned_from_stream _ _ _ _ _ _ Hstream Hprops) as H.
  apply properties_of_stream_Ok in H. destruct H as (_ & _ & Htype & Horder).
  destruct (scan_fields _ _ _ Htype Horder) as (d & -> & -> & ->).
  simpl in Hfield. rewrite Hfield. split; reflexivity.
Qed.

Lemma absent_field_order_is_progressive_witness :
  exists props,
    get_video_properties (run_exits 0 EmptyString)
      (loads_as (one_stream (stream_with []))) sample_float "clip.mxf"
    = Ok props /\
    scan_type props = "progressive" /\ scan_order props = "Progressive".
Proof.
  eexists. split; [reflexivity | ].
  apply (absent_field_order_is_progressive
           (run_exits 0 EmptyString)
           (loads_as (one_stream (stream_with []))) sample_float
           "clip.mxf" (stream_with [])); reflexivity.
Defined.

(** X2. The two scan fields of a returned record stay within their
    vocabularies: "progressive" or "interlaced", and "TFF", "BFF" or
    "Progressive". *)
Theorem scan_fields_are_enumerated
    (subprocess_run : list string -> run_result)
    (json_loads : string -> option pyval)
    (float_of_str : string -> option spec_float)
    (video_path : string) (props : video_properties) :
  get_video_properties subprocess_run json_loads float_of_str video_path
  = Ok props ->
  (scan_type props = "progressive" \/ scan_type props = "interlaced") /\
  (scan_order props = "TFF" \/ scan_order props = "BFF"
   \/ scan_order props = "Progressive").
Proof.
  intro Hprops. apply inspect_Ok_inv in Hprops.
  destruct Hprops as (video_stream & _ & H).
  apply properties_of_stream_Ok in H. destruct H as (_ & _ & Htype & Horder).
  destruct (scan_fields _ _ _ Htype Horder) as (d & _ & -> & ->).
  destruct (dict_lookup "field_order" d) as [v | ]; [ | auto].
  destruct (eq_str v "progressive"), (eq_str v "tt"), (eq_str v "bb"); auto.
Qed.

Lemma scan_fields_are_enumerated_witness :
  exists props,
    get_video_properties (run_exits 0 EmptyString)
      (loads_as (one_stream (stream_with [("field_order", VStr "bt")])))
      sample_float "clip.mxf"
    = Ok props /\
    (scan_type props = "progressive" \/ scan_type props = "interlaced") /\
    (scan_order props = "TFF" \/ scan_order props = "BFF"
     \/ scan_order props = "Progressive").
Proof.
  eexists. split; [reflexivity | ].
  apply (scan_fields_are_enumerated
           (run_exits 0 EmptyString)
           (loads_as (one_stream (stream_with [("field_order", VStr "bt")])))
           sample_float "clip.mxf").
  reflexivity.
Defined.

(** X3. In a returned record, [format_name] and [codec_name] are both the
    stream's [codec_name], [format_level] is the stream's [level], and
    [width] and [height] are [int] of the stream's values. *)
Theorem record_copies_stream_fields
    (subprocess_run : list string -> run_result)
    (json_loads : string -> option pyval)
    (float_of_str : string -> option spec_float)
    (video_path : string) (video_stream : pyval)
    (props : video_properties) :
  selected_stream subprocess_run json_loads video_path = Ok video_stream ->
  get_video_properties subprocess_run json_loads float_of_str video_path
  = Ok props ->
  format_name props = codec_name props /\
  field_of video_stream "codec_name" = Some (codec_name props) /\
  field_of video_stream "level" = Some (format_level props) /\
  (exists w, field_of video_stream "width" = Some w
             /\ int w = Val (width props)) /\
  (exists h, field_of video_stream "height" = Some h
             /\ int h = Val (height props)).
Proof.
  intros Hstream Hprops.
  pose proof (returned_from_stream _ _ _ _ _ _ Hstream Hprops) as H.
  apply properties_of_stream_Ok_fields in H.
  destruct H as (Hname & Hlevel & Hcodec & _ & Hw & Hh & _).
  apply int_item_Ok in Hw, Hh.
  apply getitem_Val_dict in Hlevel. destruct Hlevel as (d & -> & Hlevel).
  simpl in *.
  destruct (dict_lookup "codec_name" d) as [v | ]; [ | discriminate Hname].
  inversion Hname. inversion Hcodec as [Heq]. subst.
  rewrite Heq. repeat split; assumption || reflexivity.
Qed.

Lemma record_copies_stream_fields_witness :
  exists props,
    get_video_properties (run_exits 0 EmptyString)
      (loads_as (one_stream (stream_with []))) sample_float "clip.mxf"
    = Ok props /\
    format_name props = codec_name props /\
    field_of (stream_with []) "codec_name" = Some (codec_name props) /\
    field_of (stream_with []) "level" = Some (format_level props) /\
    (exists w, field_of (stream_with []) "width" = Some w
               /\ int w = Val (width props)) /\
    (exists h, field_of (stream_with []) "height" = Some h
               /\ int h = Val (height props)).
Proof.
  eexists. split; [reflexivity | ].
  apply (record_copies_stream_fields
           (run_exits 0 EmptyString)
           (loads_as (one_stream (stream_with []))) sample_float
           "clip.mxf" (stream_with [])); reflexivity.
Defined.

(** X4. No record is returned unless the selected stream has all of
    [r_frame_rate], [display_aspect_ratio], [codec_name], [level], [width]
    and [height]. *)
Theorem record_needs_required_fields
    (subprocess_run : list string -> run_result)
    (json_loads : string -> option pyval)
    (float_of_str : string -> option spec_float)
    (video_path : string) (video_stream : pyval)
    (props : video_properties) (key : string) :
  selected_stream subprocess_run json_loads video_path = Ok video_stream ->
  get_video_properties subprocess_run json_loads float_of_str video_path
  = Ok props ->
  In key ["r_frame_rate"; "display_aspect_ratio"; "codec_name"; "level";
          "width"; "height"] ->
  field_of video_stream key <> None.
Proof.
  intros Hstream Hprops Hkey.
  pose proof (returned_from_stream _ _ _ _ _ _ Hstream Hprops) as H.
  pose proof (properties_of_stream_Ok _ _ _ H) as (Hrate & _).
  apply properties_of_stream_Ok_fields in H.
  destruct H as (Hname & Hlevel & _ & _ & Hw & Hh & _ & _ & _ & _ & Hratio).
  apply int_item_Ok in Hw, Hh.
  destruct Hw as (w & Hw & _). destruct Hh as (h & Hh & _).
  apply getitem_Val_dict in Hname, Hlevel.
  destruct Hname as (d & -> & Hname). destruct Hlevel as (d' & Hd & Hlevel).
  inversion Hd. subst d'. clear Hd.
  unfold frame_rate_of in Hrate. peel Hrate as rate Erate.
  apply at_line_Ok_inv, getitem_Val_dict in Erate.
  destruct Erate as (d' & Hd & Erate). inversion Hd. subst d'. clear Hd.
  unfold display_aspect_ratio_of in Hratio. peel Hratio as ratio Eratio.
  apply at_line_Ok_inv, getitem_Val_dict in Eratio.
  destruct Eratio as (d' & Hd & Eratio). inversion Hd. subst d'. clear Hd.
  simpl in *.
  repeat (destruct Hkey as [<- | Hkey]; [congruence | ]).
  contradiction.
Qed.

Lemma record_needs_required_fields_witness :
  field_of (stream_with []) "display_aspect_ratio" <> None.
Proof.
  apply (record_needs_required_fields
           (run_exits 0 EmptyString)
           (loads_as (one_stream (stream_with []))) sample_float
           "clip.mxf" (stream_with [])
           {| format_name := VStr "mpeg2video";
              format_level := VInt 8;
              codec_name := VStr "mpeg2video";
              format_profile := VStr EmptyString;
              width := 1920;
              height := 1080;
              bit_rate := 0;
              frame_rate := S754_finite false 7036874417766400 (-48);
              display_aspect_ratio :=
                S754_finite false 8006399337547548 (-52);
              color_space := VStr EmptyString;
              chroma_subsampling := VStr EmptyString;
              bit_depth := 8;
              scan_type := "progressive";
              scan_order := "Progressive";
              gop_m := 0;
              gop_n := 0 |}
           "display_aspect_ratio").
  - reflexivity.
  - reflexivity.
  - simpl. tauto.
Defined.

(** X5. The optional fields of a returned record: [format_profile],
    [color_space] and [chroma_subsampling] are the stream's [profile],
    [color_space] and [pix_fmt], or the empty string when the stream has
    none; [bit_rate] and [bit_depth] are [int] of the stream's [bit_rate]
    and [bits_per_raw_sample], or 0 and 8 when the stream has none. *)
Theorem optional_fields_default
    (subprocess_run : list string -> run_result)
    (json_loads : string -> option pyval)
    (float_of_str : string -> option spec_float)
    (video_path : string) (video_stream : pyval)
    (props : video_properties) :
  selected_stream subprocess_run json_loads video_path = Ok video_stream ->
  get_video_properties subprocess_run json_loads float_of_str video_path
  = Ok props ->
  format_profile props
  = match field_of video_stream "profile" with
    | Some v => v
    | None => VStr EmptyString
    end /\
  color_space props
  = match field_of video_stream "color_space" with
    | Some v => v
    | None => VStr EmptyString
    end /\
  chroma_subsampling props
  = match field_of video_stream "pix_fmt" with
    | Some v => v
    | None => VStr EmptyString
    end /\
  match field_of video_stream "bit_rate" with
  | Some v => int v = Val (bit_rate props)
  | None => bit_rate props = 0
  end /\
  match field_of video_stream "bits_per_raw_sample" with
  | Some v => int v = Val (bit_depth props)
  | None => bit_depth props = 8
  end.
Proof.
  intros Hstream Hprops.
  pose proof (returned_from_stream _ _ _ _ _ _ Hstream Hprops) as H.
  destruct (returned_stream_is_dict _ _ _ _ _ _ Hstream Hprops) as (d & ->).
  apply properties_of_stream_Ok_fields in H.
  destruct H as (_ & _ & _ & Hprofile & _ & _ & Hrate & Hspace & Hchroma
                 & Hdepth & _).
  unfold int_get in Hrate, Hdepth. simpl in *.
  inversion Hprofile as [Hp]. inversion Hspace as [Hs].
  inversion Hchroma as [Hc]. clear Hprofile Hspace Hchroma.
  repeat split.
  - destruct (dict_lookup "bit_rate" d); simpl in Hrate.
    + apply at_line_Ok_inv in Hrate. exact Hrate.
    + inversion Hrate. reflexivity.
  - destruct (dict_lookup "bits_per_raw_sample" d); simpl in Hdepth.
    + apply at_line_Ok_inv in Hdepth. exact Hdepth.
    + inversion Hdepth. reflexivity.
Qed.

Lemma optional_fields_default_witness :
  exists props,
    get_video_properties (run_exits 0 EmptyString)
      (loads_as (one_stream (stream_with [("bit_rate", VStr "50000000")])))
      sample_float "clip.mxf"
    = Ok props /\
    format_profile props = VStr EmptyString /\
    color_space props = VStr EmptyString /\
    chroma_subsampling props = VStr EmptyString /\
    int (VStr "50000000") = Val (bit_rate props) /\
    bit_depth props = 8.
Proof.
  eexists. split; [reflexivity | ].
  apply (optional_fields_default
           (run_exits 0 EmptyString)
           (loads_as (one_stream (stream_with [("bit_rate", VStr "50000000")])))
           sample_float "clip.mxf"
           (stream_with [("bit_rate", VStr "50000000")])); reflexivity.
Defined.

(** ** The extractor: the frame rate and the aspect ratio *)

(** Lines 40-41 on a field "num/den" of two integer literals. *)
Lemma frame_rate_of_num_den d num den a b :
  dict_lookup "r_frame_rate" d = Some (VStr (num ++ String "/" den)) ->
  int_of_str num = Some a ->
  int_of_str den = Some b ->
  frame_rate_of (VDict d) = at_line 41 (int_truediv a b).
Proof.
  intros Hfield Ha Hb.
  assert (Hsplit : split "/" (num ++ String "/" den) = [num; den]).
  { rewrite split_app
      by (apply int_literal_no_slash; unfold int_literal; congruence).
    rewrite split_no_sep
      by (apply int_literal_no_slash; unfold int_literal; congruence).
    reflexivity. }
  unfold frame_rate_of, getitem. rewrite Hfield.
  unfold split_val, at_line at 1 2, bind at 1 2. rewrite Hsplit.
  unfold int_str. rewrite Ha, Hb. reflexivity.
Qed.

(** When the first step after the selection fails, so does the call. *)
Lemma properties_of_stream_rate_fails float_of_str video_stream line c :
  frame_rate_of video_stream = Raise line c ->
  properties_of_stream float_of_str video_stream = Raise line c.
Proof. unfold properties_of_stream. intro H. rewrite H. reflexivity. Qed.

(** X6. A frame-rate field "num/0" (a zero denominator, as in "0/0") whose
    two pieces are integer literals of at most 4300 characters, so that
    [int] converts them whatever its limit on digits, makes inspection
    raise ZeroDivisionError on line 41. *)
Theorem zero_denominator_raises
    (subprocess_run : list string -> run_result)
    (json_loads : string -> option pyval)
    (float_of_str : string -> option spec_float)
    (video_path : string) (video_stream : pyval)
    (num den : string) (a : Z) :
  selected_stream subprocess_run json_loads video_path = Ok video_stream ->
  field_of video_stream "r_frame_rate"
  = Some (VStr (num ++ String "/" den)) ->
  (String.length num <= 4300)%nat ->
  (String.length den <= 4300)%nat ->
  int_of_str num = Some a ->
  int_of_str den = Some 0 ->
  get_video_properties subprocess_run json_loads float_of_str video_path
  = Raise 41 ZeroDivisionError.
Proof.
  intros Hstream Hfield _ _ Ha Hb.
  rewrite (inspect_after_selection _ _ float_of_str _ _ Hstream).
  destruct video_stream; simpl in Hfield; try discriminate Hfield.
  apply properties_of_stream_rate_fails.
  rewrite (frame_rate_of_num_den _ _ _ _ _ Hfield Ha Hb).
  destruct a; reflexivity.
Qed.

Lemma zero_denominator_raises_witness :
  get_video_properties (run_exits 0 EmptyString)
    (loads_as (one_stream (stream_with [("r_frame_rate", VStr "0/0")])))
    sample_float "clip.mxf"
  = Raise 41 ZeroDivisionError.
Proof.
  apply (zero_denominator_raises
           (run_exits 0 EmptyString)
           (loads_as (one_stream (stream_with [("r_frame_rate", VStr "0/0")])))
           sample_float "clip.mxf"
           (stream_with [("r_frame_rate", VStr "0/0")]) "0" "0" 0);
    try reflexivity; simpl; lia.
Defined.

(** X7. For a frame-rate field "num/den" of two integer literals, a
    returned record holds the quotient of the two integers, and the
    denominator is not zero. *)
Theorem frame_rate_is_the_quotient
    (subprocess_run : list string -> run_result)
    (json_loads : string -> option pyval)
    (float_of_str : string -> option spec_float)
    (video_path : string) (video_stream : pyval)
    (props : video_properties) (num den : string) (a b : Z) :
  selected_stream subprocess_run json_loads video_path = Ok video_stream ->
  field_of video_stream "r_frame_rate"
  = Some (VStr (num ++ String "/" den)) ->
  int_of_str num = Some a ->
  int_of_str den = Some b ->
  get_video_properties subprocess_run json_loads float_of_str video_path
  = Ok props ->
  b <> 0 /\ int_truediv a b = Val (frame_rate props).
Proof.
  intros Hstream Hfield Ha Hb Hprops.
  pose proof (returned_from_stream _ _ _ _ _ _ Hstream Hprops) as H.
  apply properties_of_stream_Ok in H. destruct H as (Hrate & _).
  destruct video_stream; simpl in Hfield; try discriminate Hfield.
  rewrite (frame_rate_of_num_den _ _ _ _ _ Hfield Ha Hb) in Hrate.
  apply at_line_Ok_inv in Hrate. split; [ | exact Hrate].
  intros ->. destruct a; discriminate Hrate.
Qed.

Lemma frame_rate_is_the_quotient_witness :
  exists props,
    get_video_properties (run_exits 0 EmptyString)
      (loads_as (one_stream (stream_with [("r_frame_rate", VStr "50/2")])))
      sample_float "clip.mxf"
    = Ok props /\
    2 <> 0 /\ int_truediv 50 2 = Val (frame_rate props).
Proof.
  eexists. split; [reflexivity | ].
  apply (frame_rate_is_the_quotient
           (run_exits 0 EmptyString)
           (loads_as (one_stream (stream_with [("r_frame_rate", VStr "50/2")])))
           sample_float "clip.mxf"
           (stream_with [("r_frame_rate", VStr "50/2")]) _ "50" "2");
    reflexivity.
Defined.

(** X8. A stream whose frame rate can be read but which has no
    [display_aspect_ratio] makes inspection raise KeyError on line 44. *)
Theorem missing_aspect_ratio_raises
    (subprocess_run : list string -> run_result)
    (json_loads : string -> option pyval)
    (float_of_str : string -> option spec_float)
    (video_path : string) (video_stream : pyval) (rate : spec_float) :
  selected_stream subprocess_run json_loads video_path = Ok video_stream ->
  frame_rate_of video_stream = Ok rate ->
  field_of video_stream "display_aspect_ratio" = None ->
  get_video_properties subprocess_run json_loads float_of_str video_path
  = Raise 44 KeyError.
Proof.
  intros Hstream Hrate Hfield.
  rewrite (inspect_after_selection _ _ float_of_str _ _ Hstream).
  destruct (frame_rate_of_Ok_dict _ _ Hrate) as (d & ->).
  unfold properties_of_stream. rewrite Hrate.
  unfold display_aspect_ratio_of, getitem. simpl in Hfield |- *.
  rewrite Hfield. reflexivity.
Qed.

Lemma missing_aspect_ratio_raises_witness :
  get_video_properties (run_exits 0 EmptyString)
    (loads_as (one_stream stream_without_ratio)) sample_float "clip.mxf"
  = Raise 44 KeyError.
Proof.
  apply (missing_aspect_ratio_raises
           (run_exits 0 EmptyString)
           (loads_as (one_stream stream_without_ratio)) sample_float
           "clip.mxf" stream_without_ratio
           (S754_finite false 7036874417766400 (-48))); reflexivity.
Defined.

(** ** The extractor: the GOP tag *)

Lemma occurs_app c (a b : string) :
  occurs c (a ++ b) = occurs c a || occurs c b.
Proof.
  induction a as [ | x rest IH]; simpl; [reflexivity | ].
  rewrite IH. apply orb_assoc.
Qed.

(** A character that [s] lacks is absent from the first piece of [s]. *)
Lemma split_head_lacks sep c (s : string) :
  occurs c s = false ->
  exists piece pieces,
    split sep s = piece :: pieces /\ occurs c piece = false.
Proof.
  induction s as [ | x rest IH]; simpl; intro H.
  - exists EmptyString, []. auto.
  - apply orb_false_iff in H. destruct H as [Hx Hrest].
    destruct (Ascii.eqb x sep).
    + exists EmptyString, (split sep rest). auto.
    + destruct (IH Hrest) as (piece & pieces & -> & Hpiece).
      exists (String x piece), pieces. simpl. rewrite Hx, Hpiece. auto.
Qed.

(** No integer literal contains a comma or an equals sign. *)
Lemma int_literal_no_comma (s : string) (z : Z) :
  int_of_str s = Some z -> occurs "," s = false.
Proof.
  intro H. destruct (occurs "," s) eqn:E; [ | reflexivity].
  rewrite (int_of_str_occurs ",") in H by auto. discriminate H.
Qed.

Lemma int_literal_no_equals (s : string) (z : Z) :
  int_of_str s = Some z -> occurs "=" s = false.
Proof.
  intro H. destruct (occurs "=" s) eqn:E; [ | reflexivity].
  rewrite (int_of_str_occurs "=") in H by auto. discriminate H.
Qed.

(** Lines 50-51 on a token "key=value". *)
Lemma gop_entry_key_value line gop_info i key value n :
  nth_error gop_info i = Some (key ++ String "=" value) ->
  occurs "=" key = false ->
  int_of_str value = Some n ->
  gop_entry line gop_info i = Ok n.
Proof.
  intros Hnth Hkey Hvalue. unfold gop_entry, nth_str. rewrite Hnth. simpl.
  rewrite split_app by exact Hkey.
  rewrite split_no_sep by exact (int_literal_no_equals _ _ Hvalue).
  simpl. unfold int_str. rewrite Hvalue. reflexivity.
Qed.

(** Lines 47-51 on a tag made of two tokens "key=value". *)
Lemma gop_of_two_tokens d tags key1 value1 key2 value2 m n :
  dict_lookup "tags" d = Some (VDict tags) ->
  dict_lookup "gop_size" tags
  = Some (VStr ((key1 ++ String "=" value1)
                ++ String "," (key2 ++ String "=" value2))) ->
  occurs "," key1 = false -> occurs "=" key1 = false ->
  occurs "," key2 = false -> occurs "=" key2 = false ->
  int_of_str value1 = Some m ->
  int_of_str value2 = Some n ->
  gop_of (VDict d) = Ok (m, n).
Proof.
  intros Htags Hgop Hc1 He1 Hc2 He2 Hm Hn.
  unfold gop_of. simpl. rewrite Htags. simpl. rewrite Hgop. simpl.
  rewrite split_app.
  2:{ rewrite occurs_app. simpl. rewrite Hc1.
      exact (int_literal_no_comma _ _ Hm). }
  rewrite split_no_sep.
  2:{ rewrite occurs_app. simpl. rewrite Hc2.
      exact (int_literal_no_comma _ _ Hn). }
  set (gop_info := [key1 ++ String "=" value1; key2 ++ String "=" value2]).
  rewrite (gop_entry_key_value 50 gop_info 0 key1 value1 m eq_refl He1 Hm).
  rewrite (gop_entry_key_value 51 gop_info 1 key2 value2 n eq_refl He2 Hn).
  reflexivity.
Qed.

(** X9. The GOP tag is read by position: for a [gop_size] tag
    "key1=value1,key2=value2" with integer values, a returned record has
    [gop_m] the first value and [gop_n] the second, whatever the two keys
    are called. *)
Theorem gop_is_read_by_position
    (subprocess_run : list string -> run_result)
    (json_loads : string -> option pyval)
    (float_of_str : string -> option spec_float)
    (video_path : string) (video_stream tags : pyval)
    (props : video_properties)
    (key1 value1 key2 value2 : string) (m n : Z) :
  selected_stream subprocess_run json_loads video_path = Ok video_stream ->
  field_of video_stream "tags" = Some tags ->
  field_of tags "gop_size"
  = Some (VStr ((key1 ++ String "=" value1)
                ++ String "," (key2 ++ String "=" value2))) ->
  occurs "," key1 = false -> occurs "=" key1 = false ->
  occurs "," key2 = false -> occurs "=" key2 = false ->
  int_of_str value1 = Some m ->
  int_of_str value2 = Some n ->
  get_video_properties subprocess_run json_loads float_of_str video_path
  = Ok props ->
  gop_m props = m /\ gop_n props = n.
Proof.
  intros Hstream Htags Hgop Hc1 He1 Hc2 He2 Hm Hn Hprops.
  pose proof (returned_from_stream _ _ _ _ _ _ Hstream Hprops) as H.
  apply properties_of_stream_Ok in H. destruct H as (_ & Hrec & _).
  destruct video_stream; simpl in Htags; try discriminate Htags.
  destruct tags; simpl in Hgop; try discriminate Hgop.
  rewrite (gop_of_two_tokens _ _ _ _ _ _ _ _ Htags Hgop Hc1 He1 Hc2 He2 Hm Hn)
    in Hrec.
  inversion Hrec. auto.
Qed.

Lemma gop_is_read_by_position_witness :
  exists props,
    get_video_properties (run_exits 0 EmptyString)
      (loads_as (one_stream
         (stream_with [("tags", VDict [("gop_size", VStr "n=3,m=12")])])))
      sample_float "clip.mxf"
    = Ok props /\
    gop_m props = 3 /\ gop_n props = 12.
Proof.
  eexists. split; [reflexivity | ].
  apply (gop_is_read_by_position
           (run_exits 0 EmptyString)
           (loads_as (one_stream
              (stream_with [("tags", VDict [("gop_size", VStr "n=3,m=12")])])))
           sample_float "clip.mxf"
           (stream_with [("tags", VDict [("gop_size", VStr "n=3,m=12")])])
           (VDict [("gop_size", VStr "n=3,m=12")]) _
           "n" "3" "m" "12"); reflexivity.
Defined.

(** X10. A [gop_size] tag without an equals sign (a bare number, say) makes
    inspection raise IndexError on line 50, once the frame rate and the
    aspect ratio have been read. *)
Theorem gop_without_equals_raises
    (subprocess_run : list string -> run_result)
    (json_loads : string -> option pyval)
    (float_of_str : string -> option spec_float)
    (video_path : string) (video_stream tags : pyval)
    (rate ratio : spec_float) (gop_size : string) :
  selected_stream subprocess_run json_loads video_path = Ok video_stream ->
  frame_rate_of video_stream = Ok rate ->
  display_aspect_ratio_of float_of_str video_stream = Ok ratio ->
  field_of video_stream "tags" = Some tags ->
  field_of tags "gop_size" = Some (VStr gop_size) ->
  occurs "=" gop_size = false ->
  get_video_properties subprocess_run json_loads float_of_str video_path
  = Raise 50 IndexError.
Proof.
  intros Hstream Hrate Hratio Htags Hgop Hequals.
  rewrite (inspect_after_selection _ _ float_of_str _ _ Hstream).
  unfold properties_of_stream. rewrite Hrate, Hratio.
  destruct video_stream; simpl in Htags; try discriminate Htags.
  destruct tags; simpl in Hgop; try discriminate Hgop.
  unfold gop_of. simpl. rewrite Htags. simpl. rewrite Hgop. simpl.
  destruct (split_head_lacks "," "=" gop_size Hequals)
    as (piece & pieces & -> & Hpiece).
  unfold gop_entry. simpl.
  rewrite (split_no_sep "=" piece Hpiece). reflexivity.
Qed.

Lemma gop_without_equals_raises_witness :
  get_video_properties (run_exits 0 EmptyString)
    (loads_as (one_stream
       (stream_with [("tags", VDict [("gop_size", VStr "12")])])))
    sample_float "clip.mxf"
  = Raise 50 IndexError.
Proof.
  apply (gop_without_equals_raises
           (run_exits 0 EmptyString)
           (loads_as (one_stream
              (stream_with [("tags", VDict [("gop_size", VStr "12")])])))
           sample_float "clip.mxf"
           (stream_with [("tags", VDict [("gop_size", VStr "12")])])
           (VDict [("gop_size", VStr "12")])
           (S754_finite false 7036874417766400 (-48))
           (S754_finite false 8006399337547548 (-52)) "12"); reflexivity.
Defined.

(** ** The extractor: what can escape *)

(** X11. Once [subprocess.run] has returned and [json.loads] has parsed
    what the process wrote, [get_video_properties] fails only with KeyError,
    IndexError, TypeError, AttributeError, ValueError, ZeroDivisionError or
    OverflowError, raised between lines 37 and 67. *)
Theorem extractor_exception_classes
    (subprocess_run : list string -> run_result)
    (json_loads : string -> option pyval)
    (float_of_str : string -> option spec_float)
    (video_path : string) (result : CompletedProcess) (video_info : pyval)
    (line : nat) (c : exc_class) :
  subprocess_run (ffprobe_command video_path) = Completed result ->
  json_loads (stdout result) = Some video_info ->
  get_video_properties subprocess_run json_loads float_of_str video_path
  = Raise line c ->
  In c extractor_classes /\ (37 <= line <= 67)%nat.
Proof.
  intros Hrun Hloads H.
  unfold get_video_properties, selected_stream, probe in H.
  rewrite Hrun, Hloads in H. simpl in H.
  apply bind_Raise_inv in H. destruct H as [H | (video_stream & _ & H)].
  - unfold first_stream in H. raise_classes; class_found.
  - apply properties_of_stream_Raise_class in H.
    destruct H as [Hc Hline]. split; [exact Hc | lia].
Qed.

Lemma extractor_exception_classes_witness :
  In IndexError extractor_classes /\ (37 <= 50 <= 67)%nat.
Proof.
  apply (extractor_exception_classes
           (run_exits 0 EmptyString)
           (loads_as (one_stream
              (stream_with [("tags", VDict [("gop_size", VStr "12")])])))
           sample_float "clip.mxf" (mkCompleted 0 "{}" EmptyString)
           (one_stream
              (stream_with [("tags", VDict [("gop_size", VStr "12")])])));
    reflexivity.
Defined.

(** ** The converter: outcomes and the command line *)

Lemma prefix_refl (s : string) : String.prefix s s = true.
Proof.
  induction s as [ | c rest IH]; simpl; [reflexivity | ].
  destruct (ascii_dec c c) as [_ | Hc]; [exact IH | contradiction].
Qed.

Lemma contains_refl (s : string) : contains s s = true.
Proof.
  destruct s as [ | c rest]; [reflexivity | ].
  change (String.prefix (String c rest) (String c rest)
          || contains (String c rest) rest = true).
  rewrite prefix_refl. reflexivity.
Qed.

(** A text contains each of its endings. *)
Lemma contains_suffix (before s : string) : contains s (before ++ s) = true.
Proof.
  induction before as [ | c rest IH]; simpl.
  - apply contains_refl.
  - change (String.prefix s (String c (rest ++ s))
            || contains s (rest ++ s) = true).
    rewrite IH. apply orb_true_r.
Qed.

(** X12. Whenever [subprocess.run] returns a completed process, the
    conversion does not raise: the call returns normally whatever the exit
    status, having printed exactly one line, the success message for status
    0 and the error message otherwise. *)
Theorem conversion_returns_when_run_returns
    (subprocess_run : list string -> run_result)
    (input_video_path output_video_path
     video_codec resolution bitrate audio_codec : string)
    (result : CompletedProcess) :
  subprocess_run
    (ffmpeg_command input_video_path output_video_path
                    video_codec resolution bitrate audio_codec)
  = Completed result ->
  convert_video_to_requirements subprocess_run
    input_video_path output_video_path
    video_codec resolution bitrate audio_codec
  = mkEffect
      [ if returncode result =? 0
        then "Video conversion completed successfully."
        else "Error during conversion: ffmpeg conversion failed: "
             ++ stderr result ]
      Returns.
Proof.
  intro Hrun. unfold convert_video_to_requirements, conversion_attempt.
  rewrite Hrun. destruct (returncode result =? 0); reflexivity.
Qed.

Lemma conversion_returns_when_run_returns_witness :
  convert_video_to_requirements (run_exits 0 EmptyString)
    "clip.mp4" "output.mxf" "mpeg2video" "1280x720" "35M" "pcm_s24le"
  = mkEffect ["Video conversion completed successfully."] Returns.
Proof.
  apply (conversion_returns_when_run_returns
           (run_exits 0 EmptyString)
           "clip.mp4" "output.mxf" "mpeg2video" "1280x720" "35M" "pcm_s24le"
           (mkCompleted 0 "{}" EmptyString)).
  reflexivity.
Defined.

(** X13. After a non-zero exit, the one printed line contains the whole
    standard error text of the transcoding process. *)
Theorem error_line_carries_stderr
    (subprocess_run : list string -> run_result)
    (input_video_path output_video_path
     video_codec resolution bitrate audio_codec : string)
    (result : CompletedProcess) :
  subprocess_run
    (ffmpeg_command input_video_path output_video_path
                    video_codec resolution bitrate audio_codec)
  = Completed result ->
  returncode result <> 0 ->
  exists line,
    printed (convert_video_to_requirements subprocess_run
               input_video_path output_video_path
               video_codec resolution bitrate audio_codec)
    = [line] /\
    contains (stderr result) line = true.
Proof.
  intros Hrun Hcode.
  exists ("Error during conversion: ffmpeg conversion failed: "
          ++ stderr result).
  unfold convert_video_to_requirements, conversion_attempt.
  rewrite Hrun. apply Z.eqb_neq in Hcode. rewrite Hcode. simpl.
  split; [reflexivity | ].
  apply (contains_suffix
           "Error during conversion: ffmpeg conversion failed: ").
Qed.

Lemma error_line_carries_stderr_witness :
  exists line,
    printed (convert_video_to_requirements
               (run_exits 69 "clip.mp4: Invalid data found")
               "clip.mp4" "output.mxf" "mpeg2video" "1280x720" "35M"
               "pcm_s24le")
    = [line] /\
    contains "clip.mp4: Invalid data found" line = true.
Proof.
  apply (error_line_carries_stderr
           (run_exits 69 "clip.mp4: Invalid data found")
           "clip.mp4" "output.mxf" "mpeg2video" "1280x720" "35M" "pcm_s24le"
           (mkCompleted 69 "{}" "clip.mp4: Invalid data found")).
  - reflexivity.
  - simpl. discriminate.
Defined.

(** X14. The command line always starts with the program and the input
    ([ffmpeg -i input]) and ends with the output path; it has 34 arguments
    with the codec 'h264_videotoolbox' and 32 with any other. *)
Theorem command_shape
    (input_video_path output_video_path
     video_codec resolution bitrate audio_codec : string) :
  let command :=
    ffmpeg_command input_video_path output_video_path
                   video_codec resolution bitrate audio_codec in
  firstn 3 command = ["ffmpeg"; "-i"; input_video_path] /\
  last command EmptyString = output_video_path /\
  List.length command
  = if String.eqb video_codec "h264_videotoolbox" then 34%nat else 32%nat.
Proof.
  unfold ffmpeg_command.
  destruct (String.eqb video_codec "h264_videotoolbox");
    repeat split; reflexivity.
Qed.

(** X15. Each value that the caller passes lands behind its option: the
    codecs behind [-c:v] and [-c:a], the one bitrate behind each of [-b:v],
    [-minrate], [-maxrate] and [-bufsize], and the resolution inside the
    [-vf] filter, followed by the top-field-first flag. *)
Theorem caller_values_land_on_their_options
    (input_video_path output_video_path
     video_codec resolution bitrate audio_codec : string) :
  let command :=
    ffmpeg_command input_video_path output_video_path
                   video_codec resolution bitrate audio_codec in
  has_option "-c:v" video_codec command = true /\
  has_option "-b:v" bitrate command = true /\
  has_option "-minrate" bitrate command = true /\
  has_option "-maxrate" bitrate command = true /\
  has_option "-bufsize" bitrate command = true /\
  has_option "-vf" ("scale=" ++ resolution ++ ",setfield=mode=tff") command
  = true /\
  has_option "-c:a" audio_codec command = true.
Proof.
  unfold ffmpeg_command.
  destruct (String.eqb video_codec "h264_videotoolbox");
    repeat split; simpl;
    repeat (rewrite ?String.eqb_refl, ?orb_true_r, ?andb_false_r; simpl);
    reflexivity.
Qed.

(** ** The page script *)

Lemma first_stream_missing (video_info : pyval) :
  field_of video_info "streams" = None \/
  field_of video_info "streams" = Some (VList []) ->
  exists c, first_stream video_info = Raise 37 c.
Proof.
  unfold first_stream. intro H.
  destruct video_info; simpl in *; try (exists TypeError; reflexivity).
  destruct H as [H | H]; rewrite H; simpl; eauto.
Qed.

Lemma download_not_printed label data file_name mime (lines : list string) :
  ~ In (Page.DownloadButton label data file_name mime) (map Page.Print lines).
Proof.
  intro H. apply in_map_iff in H. destruct H as (line & H & _).
  discriminate H.
Qed.

(** Look for an event through the appended parts of a trace. *)
Ltac find_event H :=
  cbn [Page.events] in H;
  unfold Page.header, Page.download_offer in H;
  repeat match type of H with
  | In _ (_ ++ _) => apply in_app_or in H; destruct H as [H | H]
  | In _ (map Page.Print _) =>
      apply download_not_printed in H; contradiction
  | In _ (_ :: _) => apply in_inv in H; destruct H as [H | H]
  | In _ [] => contradiction
  end;
  try discriminate H.

(** X16. A failed conversion is announced as completed: when the button is
    pressed and the transcoding process exits with a non-zero status, the
    page run prints the error line, then writes "Conversion completed" and
    offers the download, and ends normally. *)
Theorem failed_conversion_is_announced_as_completed
    (subprocess_run : list string -> run_result)
    (json_loads : string -> option pyval)
    (float_of_str : string -> option spec_float)
    (save_file : string -> string -> option pyexc)
    (file : Page.UploadedFile) (props : video_properties)
    (result : CompletedProcess) :
  save_file ("./" ++ Page.name file) (Page.content file) = None ->
  get_video_properties subprocess_run json_loads float_of_str
                       ("./" ++ Page.name file) = Ok props ->
  subprocess_run
    (ffmpeg_command ("./" ++ Page.name file) "output.mxf"
       default_video_codec default_resolution
       default_bitrate default_audio_codec)
  = Completed result ->
  returncode result <> 0 ->
  Page.script subprocess_run json_loads float_of_str save_file
              (Some file) true
  = Page.mkRun
      (Page.header
       ++ [ Page.SaveFile ("./" ++ Page.name file) (Page.content file);
            Page.WriteProperties props;
            Page.Button "Convert to XDCAM HD422";
            Page.Print ("Error during conversion: ffmpeg conversion failed: "
                        ++ stderr result);
            Page.WriteText "Conversion completed";
            Page.WriteText "Download the converted file";
            Page.DownloadButton "Download" "output.mxf" "output.mxf"
                                "video/mxf" ])%list
      Page.Done.
Proof.
  intros Hsave Hprops Hrun Hcode.
  unfold Page.script. rewrite Hsave, Hprops.
  unfold convert_video_to_requirements, conversion_attempt.
  rewrite Hrun. apply Z.eqb_neq in Hcode. rewrite Hcode. reflexivity.
Qed.

Lemma failed_conversion_is_announced_as_completed_witness :
  exists props,
    Page.script
      (run_probe_then (Completed (mkCompleted 1 EmptyString "Unknown encoder")))
      (loads_as (one_stream (stream_with []))) sample_float always_saved
      (Some sample_upload) true
    = Page.mkRun
        (Page.header
         ++ [ Page.SaveFile "./clip.mp4" "....";
              Page.WriteProperties props;
              Page.Button "Convert to XDCAM HD422";
              Page.Print ("Error during conversion: ffmpeg conversion failed: "
                          ++ "Unknown encoder");
              Page.WriteText "Conversion completed";
              Page.WriteText "Download the converted file";
              Page.DownloadButton "Download" "output.mxf" "output.mxf"
                                  "video/mxf" ])%list
        Page.Done.
Proof.
  eexists.
  apply (failed_conversion_is_announced_as_completed
           (run_probe_then
              (Completed (mkCompleted 1 EmptyString "Unknown encoder")))
           (loads_as (one_stream (stream_with []))) sample_float always_saved
           sample_upload _ (mkCompleted 1 EmptyString "Unknown encoder")).
  - reflexivity.
  - reflexivity.
  - reflexivity.
  - simpl. discriminate.
Defined.

(** X17. A download is offered only in a run where a file was uploaded, the
    button was pressed and the conversion call returned; the run then ends
    normally, and what is offered is always the literal text "output.mxf"
    under the name "output.mxf" and the type "video/mxf". *)
Theorem download_only_after_conversion
    (subprocess_run : list string -> run_result)
    (json_loads : string -> option pyval)
    (float_of_str : string -> option spec_float)
    (save_file : string -> string -> option pyexc)
    (uploaded_file : option Page.UploadedFile) (button : bool)
    (label data file_name mime : string) :
  In (Page.DownloadButton label data file_name mime)
     (Page.events
        (Page.script subprocess_run json_loads float_of_str save_file
                     uploaded_file button)) ->
  button = true /\
  Page.run_ending
    (Page.script subprocess_run json_loads float_of_str save_file
                 uploaded_file button) = Page.Done /\
  (exists file,
     uploaded_file = Some file /\
     ending (convert_video_to_requirements subprocess_run
               ("./" ++ Page.name file) "output.mxf"
               default_video_codec default_resolution
               default_bitrate default_audio_codec) = Returns) /\
  label = "Download" /\ data = "output.mxf" /\
  file_name = "output.mxf" /\ mime = "video/mxf".
Proof.
  unfold Page.script. cbv zeta. intro H.
  destruct uploaded_file as [file | ]; [ | find_event H].
  destruct (save_file ("./" ++ Page.name file) (Page.content file));
    [find_event H | ].
  destruct (get_video_properties subprocess_run json_loads float_of_str
              ("./" ++ Page.name file)) as [props | line c];
    [ | find_event H].
  destruct button; [ | find_event H].
  destruct (ending (convert_video_to_requirements subprocess_run
                      ("./" ++ Page.name file) "output.mxf"
                      default_video_codec default_resolution
                      default_bitrate default_audio_codec)) eqn:Hend;
    [ | find_event H].
  find_event H. inversion H. subst.
  repeat split; try reflexivity. exists file. auto.
Qed.

Lemma download_only_after_conversion_witness :
  true = true /\
  Page.run_ending
    (Page.script (run_exits 0 EmptyString)
       (loads_as (one_stream (stream_with []))) sample_float always_saved
       (Some sample_upload) true) = Page.Done /\
  (exists file,
     Some sample_upload = Some file /\
     ending (convert_video_to_requirements (run_exits 0 EmptyString)
               ("./" ++ Page.name file) "output.mxf"
               default_video_codec default_resolution
               default_bitrate default_audio_codec) = Returns) /\
  "Download" = "Download" /\ "output.mxf" = "output.mxf" /\
  "output.mxf" = "output.mxf" /\ "video/mxf" = "video/mxf".
Proof.
  apply (download_only_after_conversion
           (run_exits 0 EmptyString)
           (loads_as (one_stream (stream_with []))) sample_float always_saved
           (Some sample_upload) true).
  simpl. tauto.
Defined.

(** X18. When the probe output has no [streams] entry or an empty one, the
    page run ends with the exception of line 37 right after saving the
    upload: no properties are written and no button is shown, pressed or
    not. *)
Theorem missing_streams_stop_the_page
    (subprocess_run : list string -> run_result)
    (json_loads : string -> option pyval)
    (float_of_str : string -> option spec_float)
    (save_file : string -> string -> option pyexc)
    (file : Page.UploadedFile) (button : bool)
    (result : CompletedProcess) (video_info : pyval) :
  save_file ("./" ++ Page.name file) (Page.content file) = None ->
  subprocess_run (ffprobe_command ("./" ++ Page.name file))
  = Completed result ->
  json_loads (stdout result) = Some video_info ->
  field_of video_info "streams" = None \/
  field_of video_info "streams" = Some (VList []) ->
  exists c,
    Page.script subprocess_run json_loads float_of_str save_file
                (Some file) button
    = Page.mkRun
        (Page.header
         ++ [Page.SaveFile ("./" ++ Page.name file) (Page.content file)])%list
        (Page.ExtractorRaised 37 c).
Proof.
  intros Hsave Hrun Hloads Hstreams.
  destruct (first_stream_missing video_info Hstreams) as (c & Hc).
  exists c. unfold Page.script. rewrite Hsave.
  unfold get_video_properties, selected_stream, probe.
  rewrite Hrun, Hloads. simpl. rewrite Hc. reflexivity.
Qed.

Lemma missing_streams_stop_the_page_witness :
  exists c,
    Page.script (run_exits 1 "clip.mp4: Invalid data found")
      (loads_as (VDict [])) sample_float always_saved
      (Some sample_upload) true
    = Page.mkRun
        (Page.header ++ [Page.SaveFile "./clip.mp4" "...."])%list
        (Page.ExtractorRaised 37 c).
Proof.
  apply (missing_streams_stop_the_page
           (run_exits 1 "clip.mp4: Invalid data found")
           (loads_as (VDict [])) sample_float always_saved
           sample_upload true
           (mkCompleted 1 "{}" "clip.mp4: Invalid data found") (VDict [])).
  - reflexivity.
  - reflexivity.
  - reflexivity.
  - left. reflexivity.
Defined.

(** X19. When the transcoding program cannot be spawned (an OSError such as
    FileNotFoundError), the page run ends with that exception right after
    the button: nothing is printed, "Conversion completed" is not written
    and no download is offered. *)
Theorem spawn_failure_aborts_the_page
    (subprocess_run : list string -> run_result)
    (json_loads : string -> option pyval)
    (float_of_str : string -> option spec_float)
    (save_file : string -> string -> option pyexc)
    (file : Page.UploadedFile) (props : video_properties) (err : pyexc) :
  save_file ("./" ++ Page.name file) (Page.content file) = None ->
  get_video_properties subprocess_run json_loads float_of_str
                       ("./" ++ Page.name file) = Ok props ->
  subprocess_run
    (ffmpeg_command ("./" ++ Page.name file) "output.mxf"
       default_video_codec default_resolution
       default_bitrate default_audio_codec)
  = SpawnError err ->
  issubclass (exc_type err) OSError = true ->
  Page.script subprocess_run json_loads float_of_str save_file
              (Some file) true
  = Page.mkRun
      (Page.header
       ++ [ Page.SaveFile ("./" ++ Page.name file) (Page.content file);
            Page.WriteProperties props;
            Page.Button "Convert to XDCAM HD422" ])%list
      (Page.Raised err).
Proof.
  intros Hsave Hprops Hrun Hos.
  unfold Page.script. rewrite Hsave, Hprops.
  unfold convert_video_to_requirements, conversion_attempt, handled.
  rewrite Hrun. simpl.
  destruct (exc_type err); try discriminate Hos; reflexivity.
Qed.

Lemma spawn_failure_aborts_the_page_witness :
  exists props,
    Page.script
      (run_probe_then
         (SpawnError (mkExc FileNotFoundError "No such file: 'ffmpeg'")))
      (loads_as (one_stream (stream_with []))) sample_float always_saved
      (Some sample_upload) true
    = Page.mkRun
        (Page.header
         ++ [ Page.SaveFile "./clip.mp4" "....";
              Page.WriteProperties props;
              Page.Button "Convert to XDCAM HD422" ])%list
        (Page.Raised (mkExc FileNotFoundError "No such file: 'ffmpeg'")).
Proof.
  eexists.
  apply (spawn_failure_aborts_the_page
           (run_probe_then
              (SpawnError (mkExc FileNotFoundError "No such file: 'ffmpeg'")))
           (loads_as (one_stream (stream_with []))) sample_float always_saved
           sample_upload); reflexivity.
Defined.

(** X20. Without the button, the transcoder plays no part: two worlds that
    agree on the probing process give the same page run, however the
    transcoding process would behave in each. *)
Theorem transcoder_untouched_without_button
    (run1 run2 : list string -> run_result)
    (json_loads : string -> option pyval)
    (float_of_str : string -> option spec_float)
    (save_file : string -> string -> option pyexc)
    (uploaded_file : option Page.UploadedFile) :
  (forall video_path,
     run1 (ffprobe_command video_path) = run2 (ffprobe_command video_path)) ->
  Page.script run1 json_loads float_of_str save_file uploaded_file false
  = Page.script run2 json_loads float_of_str save_file uploaded_file false.
Proof.
  intro Hprobe. unfold Page.script.
  destruct uploaded_file as [file | ]; [ | reflexivity].
  destruct (save_file ("./" ++ Page.name file) (Page.content file));
    [reflexivity | ].
  unfold get_video_properties, selected_stream, probe.
  rewrite Hprobe. reflexivity.
Qed.

Lemma transcoder_untouched_without_button_witness :
  Page.script
    (run_probe_then (Completed (mkCompleted 1 EmptyString "Unknown encoder")))
    (loads_as (one_stream (stream_with []))) sample_float always_saved
    (Some sample_upload) false
  = Page.script
      (run_probe_then
         (SpawnError (mkExc FileNotFoundError "No such file: 'ffmpeg'")))
      (loads_as (one_stream (stream_with []))) sample_float always_saved
      (Some sample_upload) false.
Proof.
  apply (transcoder_untouched_without_button
           (run_probe_then
              (Completed (mkCompleted 1 EmptyString "Unknown encoder")))
           (run_probe_then
              (SpawnError (mkExc FileNotFoundError "No such file: 'ffmpeg'")))
           (loads_as (one_stream (stream_with []))) sample_float always_saved
           (Some sample_upload)).
  intro video_path. reflexivity.
Defined.
